(** * ping.go: an ICMP echo client, embedded and verified

    The development follows [src/ping.go]: the [PingClient] record, its
    constructor [NewClient], the probe [PingClient.Ping] and the interrupt
    report of [main].  Calls into the Go runtime and into
    [golang.org/x/net/icmp] are not part of the program; their results are
    supplied by an environment record, one field per call site. *)

From Stdlib Require Import ZArith List String Strings.Byte Bool Lia Floats.
From stdpp Require Import base option list gmap.

Local Open Scope Z_scope.
#[local] Set Warnings "-inexact-float".

(** ** Go's [int]

    [int] is a 64-bit two's complement integer on the platforms the program
    is built for; arithmetic wraps around silently. *)

Module GoInt.

Definition bits : Z := 64.
Definition min_int : Z := - 2 ^ (bits - 1).
Definition max_int : Z := 2 ^ (bits - 1) - 1.

Definition wrap (z : Z) : Z := (z - min_int) mod 2 ^ bits + min_int.

Definition add (x y : Z) : Z := wrap (x + y).
Definition sub (x y : Z) : Z := wrap (x - y).
Definition mul (x y : Z) : Z := wrap (x * y).

(** [x++] *)
Definition incr (x : Z) : Z := add x 1.

Definition in_range (z : Z) : Prop := min_int <= z <= max_int.

End GoInt.

(** ** Go's [float64]

    IEEE 754 binary64, which is what Rocq's primitive [float] is.  The
    conversion [float64(i)] of an [int] rounds to nearest. *)

Definition float64 (i : Z) : float :=
  if i =? GoInt.min_int then (-9223372036854775808)%float
  else if i <? 0 then (- PrimFloat.of_uint63 (Uint63.of_Z (- i)))%float
  else PrimFloat.of_uint63 (Uint63.of_Z i).

(** ** Data *)

(** A Go [error], by its message. *)
Definition error : Type := string.

(** [net.IPAddr] *)
Record net_IPAddr : Type := {
  IP : list Byte.byte;
  Zone : string;
}.

Definition net_IPv4len : Z := 4.

Definition ProtocolICMP : Z := 1.
Definition ProtocolICMPv6 : Z := 58.

(** [type PingClient struct] *)
Record PingClient : Type := {
  IPAddr : net_IPAddr;   (* IP addr of server being pinged *)
  Addr : string;         (* domain name or IP addr of server being pinged *)
  PacketOut : Z;         (* number of packets sent *)
  PacketIn : Z;          (* number of packets recieved *)
  IPv4 : bool;           (* server addr is IPv4 *)
  Seq : Z;               (* icmp sequence number *)
  TotalTime : float;     (* total rtt time for average *)
  RTTMax : float;        (* max rtt time *)
  RTTMin : float;        (* min rtt time *)
  MsgSize : Z;           (* message body size (bytes) *)
  PLost : Z;             (* total packets lost *)
}.

(** Field assignments [pc.F = v]. *)
Definition set_PacketOut (v : Z) (pc : PingClient) : PingClient :=
  {| IPAddr := IPAddr pc; Addr := Addr pc; PacketOut := v;
     PacketIn := PacketIn pc; IPv4 := IPv4 pc; Seq := Seq pc;
     TotalTime := TotalTime pc; RTTMax := RTTMax pc; RTTMin := RTTMin pc;
     MsgSize := MsgSize pc; PLost := PLost pc |}.

Definition set_PacketIn (v : Z) (pc : PingClient) : PingClient :=
  {| IPAddr := IPAddr pc; Addr := Addr pc; PacketOut := PacketOut pc;
     PacketIn := v; IPv4 := IPv4 pc; Seq := Seq pc;
     TotalTime := TotalTime pc; RTTMax := RTTMax pc; RTTMin := RTTMin pc;
     MsgSize := MsgSize pc; PLost := PLost pc |}.

Definition set_Seq (v : Z) (pc : PingClient) : PingClient :=
  {| IPAddr := IPAddr pc; Addr := Addr pc; PacketOut := PacketOut pc;
     PacketIn := PacketIn pc; IPv4 := IPv4 pc; Seq := v;
     TotalTime := TotalTime pc; RTTMax := RTTMax pc; RTTMin := RTTMin pc;
     MsgSize := MsgSize pc; PLost := PLost pc |}.

Definition set_TotalTime (v : float) (pc : PingClient) : PingClient :=
  {| IPAddr := IPAddr pc; Addr := Addr pc; PacketOut := PacketOut pc;
     PacketIn := PacketIn pc; IPv4 := IPv4 pc; Seq := Seq pc;
     TotalTime := v; RTTMax := RTTMax pc; RTTMin := RTTMin pc;
     MsgSize := MsgSize pc; PLost := PLost pc |}.

Definition set_RTTMax (v : float) (pc : PingClient) : PingClient :=
  {| IPAddr := IPAddr pc; Addr := Addr pc; PacketOut := PacketOut pc;
     PacketIn := PacketIn pc; IPv4 := IPv4 pc; Seq := Seq pc;
     TotalTime := TotalTime pc; RTTMax := v; RTTMin := RTTMin pc;
     MsgSize := MsgSize pc; PLost := PLost pc |}.

Definition set_RTTMin (v : float) (pc : PingClient) : PingClient :=
  {| IPAddr := IPAddr pc; Addr := Addr pc; PacketOut := PacketOut pc;
     PacketIn := PacketIn pc; IPv4 := IPv4 pc; Seq := Seq pc;
     TotalTime := TotalTime pc; RTTMax := RTTMax pc; RTTMin := v;
     MsgSize := MsgSize pc; PLost := PLost pc |}.

(** The ICMP message types the client sends. *)
Inductive icmp_Type : Type :=
| ipv4_ICMPTypeEcho
| ipv6_ICMPTypeEchoRequest.

(** [icmp.MessageBody]: the bodies [icmp.ParseMessage] produces.  The
    program tells [*icmp.Echo] from everything else. *)
Inductive MessageBody : Type :=
| Echo (ID : Z) (EchoSeq : Z) (Data : list Byte.byte)
| TimeExceeded (Data : list Byte.byte)
| DstUnreach (Data : list Byte.byte)
| RawBody (Data : list Byte.byte).

Definition is_Echo (b : MessageBody) : bool :=
  match b with Echo _ _ _ => true | _ => false end.

(** [icmp.Message], as far as the program fills it in. *)
Record Message : Type := {
  msg_Type : icmp_Type;
  msg_Code : Z;
  msg_Body : MessageBody;
}.

(** What the program prints, one constructor per [Printf] or [Println];
    [Out_statistics] stands for the header and the packet line of the
    report. *)
Inductive Output : Type :=
| Out_PING (addr : string) (ipaddr : net_IPAddr)
| Out_time_limit_exceeded
| Out_received (nbytes : Z) (lossPercent : float) (from : net_IPAddr)
               (icmp_seq : Z) (time_ms : float)
| Out_error (e : error)
| Out_statistics (sent received : Z) (loss : float)
| Out_rtt (rtt_min rtt_avg rtt_max : float).

(** An open [*icmp.PacketConn]: the network it listens on and the hop limit
    set on it, [None] while the socket has the system's default. *)
Record Conn : Type := {
  conn_network : string;
  conn_hop_limit : option Z;
}.

#[global] Instance byte_eq_dec : EqDecision Byte.byte := Byte.byte_eq_dec.

(** [len(s)] *)
Definition len {A : Type} (s : list A) : Z := Z.of_nat (length s).

(** ** The environment of one call of [Ping]

    One field for each call that leaves the program, with the value or the
    error the call comes back with. *)
Record PingEnv : Type := {
  os_Getpid : Z;
  icmp_ListenPacket : string -> string -> option error;
  (* the error of SetTTL, or of SetHopLimit, for the value it is given *)
  SetHopLimit : Z -> option error;
  (* the run time's answer when asked for a byte slice of that length: None
     when it provides the memory, otherwise the message it stops the
     program with *)
  make_bytes : Z -> option string;
  Marshal : Message -> error + list Byte.byte;
  WriteTo : list Byte.byte -> net_IPAddr -> error + Z;
  SetReadDeadline : option error;
  ReadFrom : error + Z;
  (* time.Since(start).Seconds() * 1e3, taken when ReadFrom has returned *)
  elapsed_ms : float;
  ParseMessage : Z -> error + Message;
}.

(** ** Program state and control

    The client record the method receiver points to, the connections the
    process holds open, and the lines printed so far.  The record is shared
    with the goroutine that reports on interrupt, so the state also keeps
    the values the record goes through, one per assignment.  A computation
    either goes on with a value or leaves the function: [Return] with the
    error value the function returns, or [Panic] when the run time stops the
    program. *)
Record St : Type := {
  client : PingClient;
  conns : gmap nat Conn;
  stdout : list Output;
  (* every value the client record has been assigned, oldest first *)
  written : list PingClient;
}.

Inductive Exit : Type :=
| Return (err : option error)
| Panic (msg : string).

Definition M (A : Type) : Type := St -> (A + Exit) * St.

Definition mret {A : Type} (a : A) : M A := fun s => (inl a, s).

Definition mbind {A B : Type} (m : M A) (k : A -> M B) : M B :=
  fun s =>
    match m s with
    | (inl a, s') => k a s'
    | (inr e, s') => (inr e, s')
    end.

Notation "x <- c1 ;; c2" := (mbind c1 (fun x => c2))
  (at level 100, c1 at next level, right associativity).
Notation "c1 ;; c2" := (mbind c1 (fun _ => c2))
  (at level 100, right associativity).

(** [return err] *)
Definition return_ {A : Type} (err : option error) : M A :=
  fun s => (inr (Return err), s).

Definition panic {A : Type} (msg : string) : M A :=
  fun s => (inr (Panic msg), s).

(** [v, err := f(...); if err != nil { return err }] *)
Definition try {A : Type} (r : error + A) : M A :=
  match r with
  | inl err => return_ (Some err)
  | inr v => mret v
  end.

(** [err := f(...); if err != nil { return err }] *)
Definition check (r : option error) : M unit :=
  match r with
  | Some err => return_ (Some err)
  | None => mret tt
  end.

(** A value whose computation panics when it is [None]. *)
Definition or_panic {A : Type} (msg : string) (r : option A) : M A :=
  match r with
  | Some v => mret v
  | None => panic msg
  end.

(** A library call that comes back with a value or panics with a message. *)
Definition must {A : Type} (r : string + A) : M A :=
  match r with
  | inl msg => panic msg
  | inr v => mret v
  end.

Definition get_pc : M PingClient := fun s => (inl (client s), s).

(** [pc.F = ...] through the receiver. *)
Definition assign (f : PingClient -> PingClient) : M unit :=
  fun s => (inl tt, {| client := f (client s); conns := conns s; stdout := stdout s;
                       written := written s ++ [f (client s)] |}).

Definition print (o : Output) : M unit :=
  fun s => (inl tt, {| client := client s; conns := conns s; stdout := stdout s ++ [o];
                       written := written s |}).

(** [icmp.ListenPacket]: on success the process holds one more open
    connection, under a descriptor that was not in use.  The table holds the
    connections the program has opened and not closed. *)
Definition ListenPacket (env : PingEnv) (network address : string) : M nat :=
  fun s =>
    match icmp_ListenPacket env network address with
    | Some err => (inr (Return (Some err)), s)
    | None =>
        let c := fresh (dom (conns s)) in
        (inl c, {| client := client s;
                   conns := <[c := {| conn_network := network; conn_hop_limit := None |}]> (conns s);
                   stdout := stdout s; written := written s |})
    end.

(** The connection after [SetTTL] or [SetHopLimit]: the new hop limit when
    the call succeeds, the connection as it was when it fails. *)
Definition with_hop_limit (env : PingEnv) (ttl : Z) (k : Conn) : Conn :=
  match SetHopLimit env ttl with
  | None => {| conn_network := conn_network k; conn_hop_limit := Some ttl |}
  | Some _ => k
  end.

(** [c.IPv4PacketConn().SetTTL(ttl)] and [c.IPv6PacketConn().SetHopLimit(ttl)];
    the program drops the error either of them returns and goes on. *)
Definition SetTTL (env : PingEnv) (c : nat) (ttl : Z) : M unit :=
  fun s =>
    (inl tt, {| client := client s;
                conns := alter (with_hop_limit env ttl) c (conns s);
                stdout := stdout s; written := written s |}).

(** Runs a function body to the value it returns. *)
Definition call (body : M (option error)) (s : St) : Exit * St :=
  match body s with
  | (inl err, s') => (Return err, s')
  | (inr e, s') => (e, s')
  end.

(** [bytes.Repeat(b, count)]: an empty slice for a count of 0, a panic for a
    negative count or when [len(b) * count] overflows, and otherwise
    [count] copies of [b] in a slice of [len(b) * count] bytes, which the
    run time provides or not. *)
Definition bytes_Repeat (env : PingEnv) (b : list Byte.byte) (count : Z)
    : string + list Byte.byte :=
  if count =? 0 then inr []
  else if count <? 0 then inl "bytes: negative Repeat count"%string
  else if negb (Z.quot (GoInt.mul (len b) count) count =? len b) then
    inl "bytes: Repeat count causes overflow"%string
  else
    match make_bytes env (GoInt.mul (len b) count) with
    | Some msg => inl msg
    | None => inr (concat (replicate (Z.to_nat count) b))
    end.

(** ** The payload comparison of [Ping] *)

(** [for i := ...; i < n; i++ { if messageData[i] != p.Data[i] { pLost++ } }],
    with [k] rounds to go from index [i]; [None] is an index out of range. *)
Fixpoint mismatch_loop (k : nat) (i : nat) (messageData Data : list Byte.byte)
    (pLost : Z) : option Z :=
  match k with
  | O => Some pLost
  | S k' =>
      match messageData !! i, Data !! i with
      | Some x, Some y =>
          mismatch_loop k' (S i) messageData Data
            (if bool_decide (x <> y) then GoInt.incr pLost else pLost)
      | _, _ => None
      end
  end.

(** The value of the local [pLost] at the end of the [case *icmp.Echo] arm. *)
Definition echo_pLost (messageData Data : list Byte.byte) : option Z :=
  let pLost := 0 in
  if len Data <? len messageData then
    (* definetly lost data *)
    let pLost := GoInt.add pLost (GoInt.sub (len messageData) (len Data)) in
    mismatch_loop (length Data) 0 messageData Data pLost
  else
    (* check if we lost data *)
    mismatch_loop (length messageData) 0 messageData Data pLost.

(** ** [NewClient] *)

Definition NewClient (net_ResolveIPAddr : string -> string -> error + net_IPAddr)
    (addr : string) (msgSize : Z) : (error + PingClient) * list Output :=
  (* resolve ip address *)
  match net_ResolveIPAddr "ip"%string addr with
  | inl err => (inl err, [])
  | inr ipaddr =>
      (* determine ipv4 or ipv6 *)
      let isIPv4 := len (IP ipaddr) =? net_IPv4len in
      (inr {| IPAddr := ipaddr;
              Addr := addr;
              PacketOut := 0;
              PacketIn := 0;
              IPv4 := isIPv4;
              Seq := 0;
              TotalTime := 0;
              RTTMax := (-1e5)%float;
              RTTMin := 1e5%float;
              MsgSize := msgSize;
              PLost := 0 |},
       [Out_PING addr ipaddr])
  end.

(** ** [PingClient.Ping] *)

Definition newline : string := String (Ascii.ascii_of_nat 10) EmptyString.

(** The protocol number, the network name and the request type, by address
    family. *)
Definition family (pc : PingClient) : Z * string * icmp_Type :=
  if IPv4 pc then (ProtocolICMP, "ip4:icmp"%string, ipv4_ICMPTypeEcho)
  else (ProtocolICMPv6, "ip6:ipv6-icmp"%string, ipv6_ICMPTypeEchoRequest).

Definition Ping (env : PingEnv) (ttl : Z) : M (option error) :=
  pc <- get_pc ;;
  let '(proto, network, msgType) := family pc in
  (* listen to icmp replies *)
  c <- ListenPacket env network "0.0.0.0"%string ;;
  (* set up ttl *)
  SetTTL env c ttl ;;
  (* make message *)
  messageData <- must (bytes_Repeat env ["a"%byte] (MsgSize pc)) ;;
  let m := {| msg_Type := msgType; msg_Code := 0;
              msg_Body := Echo (Z.land (os_Getpid env) 0xffff) (Seq pc) messageData |} in
  assign (fun pc => set_Seq (GoInt.incr (Seq pc)) pc) ;;
  assign (fun pc => set_PacketOut (GoInt.incr (PacketOut pc)) pc) ;;
  marsh <- try (Marshal env m) ;;
  (* send the message *)
  n <- try (WriteTo env marsh (IPAddr pc)) ;;
  (if negb (n =? len marsh)
   then return_ (Some ("error marshalling message" ++ newline)%string)
   else mret tt) ;;
  (* wait for reply *)
  check (SetReadDeadline env) ;;
  (* read reply message *)
  n <- try (ReadFrom env) ;;
  let dur_ms := elapsed_ms env in
  (* keep track of max/min RTT times *)
  pc <- get_pc ;;
  (if (dur_ms <? RTTMin pc)%float then assign (set_RTTMin dur_ms) else mret tt) ;;
  pc <- get_pc ;;
  (if (RTTMax pc <? dur_ms)%float then assign (set_RTTMax dur_ms) else mret tt) ;;
  assign (fun pc => set_TotalTime (TotalTime pc + dur_ms)%float pc) ;;
  (* parse reply; reply[:n] of a 500 byte buffer *)
  (if (0 <=? n) && (n <=? 500) then mret tt
   else panic "slice bounds out of range") ;;
  rMsg <- try (ParseMessage env proto) ;;
  (if n =? 0 then
     print Out_time_limit_exceeded
   else
     assign (fun pc => set_PacketIn (GoInt.incr (PacketIn pc)) pc) ;;
     match msg_Body rMsg with
     | Echo _ _ Data =>
         pLost <- or_panic "index out of range" (echo_pLost messageData Data) ;;
         if len Data <? len messageData then
           mret tt
         else
           let lossPercent := (float64 pLost / float64 (len messageData) * 100)%float in
           pc <- get_pc ;;
           print (Out_received (len Data) lossPercent (IPAddr pc) (Seq pc) dur_ms)
     | _ => mret tt
     end) ;;
  mret None.

(** ** [main]: the interrupt report and the probe loop *)

(** The body of the goroutine that waits on [sigchan].  It reads the fields
    of the shared record one after the other, eleven reads in the order of
    the text; [rd i] is the record as the [i]-th read finds it. *)
Definition report_reads (rd : nat -> PingClient) : list Output :=
  let loss :=
    if 0 <? PacketIn (rd 0%nat) then
      (float64 (PLost (rd 1%nat))
       / float64 (GoInt.mul (PacketOut (rd 2%nat)) (MsgSize (rd 3%nat))) * 100)%float
    else 100%float in
  Out_statistics (PacketOut (rd 4%nat)) (PacketIn (rd 5%nat)) loss ::
  (if 0 <? PacketIn (rd 6%nat) then
     [Out_rtt (RTTMin (rd 7%nat))
              (TotalTime (rd 8%nat) / float64 (PacketIn (rd 9%nat)))%float
              (RTTMax (rd 10%nat))]
   else []).

(** The report when no call of [Ping] runs beside it: every read finds the
    same record. *)
Definition report (client : PingClient) : list Output :=
  report_reads (fun _ => client).

(** One round of the main loop: [err = client.Ping(ttl)], and the error is
    printed when there is one. *)
Definition main_round (env : PingEnv) (ttl : Z) (s : St) : Exit * St :=
  match call (Ping env ttl) s with
  | (Return (Some err), s') =>
      (Return (Some err),
       {| client := client s'; conns := conns s'; stdout := stdout s' ++ [Out_error err];
          written := written s' |})
  | r => r
  end.

(** Consecutive calls of [Ping], one environment per call; [None] when a
    call panics, which ends the process. *)
Fixpoint pings (calls : list (PingEnv * Z)) (s : St) : option St :=
  match calls with
  | [] => Some s
  | (env, ttl) :: rest =>
      match call (Ping env ttl) s with
      | (Return _, s') => pings rest s'
      | (Panic _, _) => None
      end
  end.

(** The state [main] starts its loop in. *)
Definition start (pc : PingClient) (out : list Output) : St :=
  {| client := pc; conns := ∅; stdout := out; written := [] |}.

(** The client record as the reporting goroutine can find it while one call
    of [Ping] runs: as it is before the call, and as it is after each
    assignment the call makes. *)
Definition snapshots (env : PingEnv) (ttl : Z) (s : St) : list PingClient :=
  client s :: drop (length (written s)) (written (call (Ping env ttl) s).2).

(** The record after [k] assignments of the call; once the call has made
    its last assignment the record stays as the call leaves it. *)
Definition record_at (env : PingEnv) (ttl : Z) (s : St) (k : nat) : PingClient :=
  default (client (call (Ping env ttl) s).2) (snapshots env ttl s !! k).

(** The report printed when the interrupt is taken while the call runs.
    Neither the goroutine nor [Ping] waits for the other at any point, so
    each read falls after some number of assignments of the call: the
    [i]-th read after [when i] of them. *)
Definition interrupted_report (env : PingEnv) (ttl : Z) (s : St) (when : nat -> nat)
    : list Output :=
  report_reads (fun i => record_at env ttl s (when i)).


(** * Specification-level definitions *)

(** ** The per-attempt lost-byte count *)

(** The comparison rule in the words of the specification: the number of
    indices below [n] at which the sent and the received payload differ, and
    the count built from it (missing trailing bytes plus mismatches in the
    overlap for a short reply, mismatches over the sent length otherwise). *)
Definition mismatches (n : nat) (sent received : list Byte.byte) : nat :=
  length (filter (fun i => sent !! i <> received !! i) (seq 0 n)).

Definition lost_bytes_spec (sent received : list Byte.byte) : Z :=
  if len received <? len sent then
    (len sent - len received) + Z.of_nat (mismatches (length received) sent received)
  else
    Z.of_nat (mismatches (length sent) sent received).


(** ** Exit paths of [Ping], read off the environment *)

Definition proto_of (pc : PingClient) : Z := (family pc).1.1.
Definition network_of (pc : PingClient) : string := (family pc).1.2.
Definition msgType_of (pc : PingClient) : icmp_Type := (family pc).2.

(** The socket is opened: [icmp.ListenPacket] returns no error. *)
Definition opens_socket (env : PingEnv) (pc : PingClient) : bool :=
  match icmp_ListenPacket env (network_of pc) "0.0.0.0"%string with
  | None => true
  | Some _ => false
  end.

(** The Echo request the call builds. *)
Definition request (env : PingEnv) (pc : PingClient) (messageData : list Byte.byte) : Message :=
  {| msg_Type := msgType_of pc; msg_Code := 0;
     msg_Body := Echo (Z.land (os_Getpid env) 0xffff) (Seq pc) messageData |}.

(** The request is built and encoded to [marsh]. *)
Definition encodes (env : PingEnv) (pc : PingClient)
    (messageData marsh : list Byte.byte) : Prop :=
  opens_socket env pc = true
  /\ bytes_Repeat env ["a"%byte] (MsgSize pc) = inr messageData
  /\ Marshal env (request env pc messageData) = inr marsh.

(** The request is built, encoded and written in full. *)
Definition sends (env : PingEnv) (pc : PingClient) (messageData : list Byte.byte) : Prop :=
  exists marsh, encodes env pc messageData marsh
    /\ WriteTo env marsh (IPAddr pc) = inr (len marsh).

(** A datagram of [n] bytes comes back before the deadline. *)
Definition receives (env : PingEnv) (pc : PingClient)
    (messageData : list Byte.byte) (n : Z) : Prop :=
  sends env pc messageData
  /\ SetReadDeadline env = None
  /\ ReadFrom env = inr n.

(** The datagram has [0 < n <= 500] bytes and parses to [rMsg]. *)
Definition parses (env : PingEnv) (pc : PingClient)
    (messageData : list Byte.byte) (n : Z) (rMsg : Message) : Prop :=
  receives env pc messageData n
  /\ 0 < n <= 500
  /\ ParseMessage env (proto_of pc) = inr rMsg.

(** ** The states a call leaves behind *)

(** The connection table once the call has opened its socket and asked for
    the hop limit on it. *)
Definition opened (env : PingEnv) (network : string) (ttl : Z) (cs : gmap nat Conn)
    : gmap nat Conn :=
  let c := fresh (dom cs) in
  alter (with_hop_limit env ttl) c
    (<[c := {| conn_network := network; conn_hop_limit := None |}]> cs).

(** The client after [pc.Seq++; pc.PacketOut++]. *)
Definition counted (pc : PingClient) : PingClient :=
  set_PacketOut (GoInt.incr (PacketOut pc)) (set_Seq (GoInt.incr (Seq pc)) pc).

(** The client after the three statements that record a round trip of
    [dur_ms], and the assignments they make. *)
Definition min_updated (dur_ms : float) (pc : PingClient) : PingClient :=
  if (dur_ms <? RTTMin pc)%float then set_RTTMin dur_ms pc else pc.

Definition max_updated (dur_ms : float) (pc : PingClient) : PingClient :=
  if (RTTMax pc <? dur_ms)%float then set_RTTMax dur_ms pc else pc.

Definition timed (dur_ms : float) (pc : PingClient) : PingClient :=
  let pc := max_updated dur_ms (min_updated dur_ms pc) in
  set_TotalTime (TotalTime pc + dur_ms)%float pc.

Definition timed_writes (dur_ms : float) (pc : PingClient) : list PingClient :=
  (if (dur_ms <? RTTMin pc)%float then [min_updated dur_ms pc] else []) ++
  (if (RTTMax (min_updated dur_ms pc) <? dur_ms)%float
   then [max_updated dur_ms (min_updated dur_ms pc)] else []) ++
  [timed dur_ms pc].

(** The client after [pc.PacketIn++]. *)
Definition taken (pc : PingClient) : PingClient :=
  set_PacketIn (GoInt.incr (PacketIn pc)) pc.

(** The socket is open, nothing else has happened. *)
Definition open_state (env : PingEnv) (ttl : Z) (s : St) : St :=
  {| client := client s;
     conns := opened env (network_of (client s)) ttl (conns s);
     stdout := stdout s;
     written := written s |}.

(** The request is counted. *)
Definition sent_state (env : PingEnv) (ttl : Z) (s : St) : St :=
  {| client := counted (client s);
     conns := opened env (network_of (client s)) ttl (conns s);
     stdout := stdout s;
     written := written s ++
                [set_Seq (GoInt.incr (Seq (client s))) (client s); counted (client s)] |}.

(** The round trip is recorded, and [out] is printed. *)
Definition timed_state (env : PingEnv) (ttl : Z) (out : list Output) (s : St) : St :=
  {| client := timed (elapsed_ms env) (counted (client s));
     conns := opened env (network_of (client s)) ttl (conns s);
     stdout := stdout s ++ out;
     written := written (sent_state env ttl s) ++
                timed_writes (elapsed_ms env) (counted (client s)) |}.

(** The reply is counted, and [out] is printed. *)
Definition taken_state (env : PingEnv) (ttl : Z) (out : list Output) (s : St) : St :=
  {| client := taken (timed (elapsed_ms env) (counted (client s)));
     conns := opened env (network_of (client s)) ttl (conns s);
     stdout := stdout s ++ out;
     written := written (timed_state env ttl [] s) ++
                [taken (timed (elapsed_ms env) (counted (client s)))] |}.

(** The line printed for an Echo reply that is not shorter than the request. *)
Definition received_line (env : PingEnv) (pc : PingClient)
    (messageData Data : list Byte.byte) (pLost : Z) : Output :=
  Out_received (len Data)
    (float64 pLost / float64 (len messageData) * 100)%float
    (IPAddr pc) (GoInt.incr (Seq pc)) (elapsed_ms env).

(** ** Sample runs

    A resolved IPv4 address, the client [NewClient] builds for it, and
    environments in which the calls out of the program go one way or the
    other. *)

Definition sample_addr : net_IPAddr :=
  {| IP := [Byte.x01; Byte.x01; Byte.x01; Byte.x01]; Zone := "" |}.

Definition sample_resolver (network host : string) : error + net_IPAddr :=
  inr sample_addr.

Definition sample_client (msgSize : Z) : PingClient :=
  {| IPAddr := sample_addr; Addr := "one.one.one.one"; PacketOut := 0; PacketIn := 0;
     IPv4 := true; Seq := 0; TotalTime := 0; RTTMax := (-1e5)%float;
     RTTMin := 1e5%float; MsgSize := msgSize; PLost := 0 |}.

Definition sample_start (msgSize : Z) : St :=
  start (sample_client msgSize) [Out_PING "one.one.one.one" sample_addr].

(** The environment of a call: whether the socket opens, whether the write
    succeeds, what the read returns, after how many milliseconds, and what
    the datagram parses to.  Eight header bytes go before the payload; hop
    limits from 1 to 255 are accepted; slices of up to 2^30 bytes are
    provided, and lengths above 2^48 are refused outright. *)
Definition sample_env (listen write : option error) (read : error + Z)
    (ms : float) (parse : error + MessageBody) : PingEnv :=
  {| os_Getpid := 4242;
     icmp_ListenPacket := fun _ _ => listen;
     SetHopLimit := fun ttl =>
       if (1 <=? ttl) && (ttl <=? 255) then None else Some "invalid argument"%string;
     make_bytes := fun n =>
       if n <=? 2 ^ 30 then None
       else if n <=? 2 ^ 48 then Some "runtime: out of memory"%string
       else Some "runtime error: makeslice: len out of range"%string;
     Marshal := fun m =>
       match msg_Body m with
       | Echo _ _ Data => inr (replicate 8 Byte.x00 ++ Data)
       | _ => inl "invalid body"%string
       end;
     WriteTo := fun b _ =>
       match write with Some err => inl err | None => inr (len b) end;
     SetReadDeadline := None;
     ReadFrom := read;
     elapsed_ms := ms;
     ParseMessage := fun _ =>
       match parse with
       | inl err => inl err
       | inr body => inr {| msg_Type := ipv4_ICMPTypeEcho; msg_Code := 0; msg_Body := body |}
       end |}.

(** An Echo reply carrying [Data] arrives after [ms] milliseconds. *)
Definition echo_env (ms : float) (Data : list Byte.byte) : PingEnv :=
  sample_env None None (inr (8 + len Data)) ms (inr (Echo 4242 0 Data)).

(** A Time Exceeded message arrives instead of the reply. *)
Definition time_exceeded_env (ms : float) : PingEnv :=
  sample_env None None (inr 36) ms (inr (TimeExceeded (replicate 28 Byte.x00))).

(** The socket cannot be opened. *)
Definition no_socket_env : PingEnv :=
  sample_env (Some "socket: operation not permitted"%string) None
    (inl "unused"%string) 0 (inl "unused"%string).

(** The write fails. *)
Definition send_error_env : PingEnv :=
  sample_env None (Some "sendto: network is unreachable"%string)
    (inl "unused"%string) 0 (inl "unused"%string).

(** No datagram arrives before the deadline. *)
Definition timeout_env : PingEnv :=
  sample_env None None (inl "i/o timeout"%string) 0 (inl "unused"%string).

(** The state after one Echo reply that took 12.3 ms. *)
Definition warm_state : St :=
  (call (Ping (echo_env 12.3 (replicate 8 "a"%byte)) 64) (sample_start 8)).2.

(** ** Statements about a call *)

(** The number of calls in a run whose socket opens. *)
Definition opened_calls (pc : PingClient) (calls : list (PingEnv * Z)) : nat :=
  length (filter (fun c => opens_socket c.1 pc = true) calls).

(** A reply of another kind than Echo surfaces as an error and leaves the
    received and lost counters alone. *)
Definition non_echo_is_an_error (env : PingEnv) (ttl : Z) (s : St) : Prop :=
  let r := call (Ping env ttl) s in
  (exists err, r.1 = Return (Some err))
  /\ PacketIn (client r.2) = PacketIn (client s)
  /\ PLost (client r.2) = PLost (client s).

(** The call moves [Seq] up by one. *)
Definition Seq_goes_up (env : PingEnv) (ttl : Z) (s : St) : Prop :=
  Seq (client (call (Ping env ttl) s).2) = Seq (client s) + 1.

(** ** Statements about a run *)

(** A probe succeeds: a datagram of 1 to 500 bytes is read and parses to an
    Echo. *)
Definition probe_succeeds (env : PingEnv) (pc : PingClient) : Prop :=
  exists messageData n rMsg,
    parses env pc messageData n rMsg /\ is_Echo (msg_Body rMsg) = true.

(** No call of the run is a successful probe. *)
Fixpoint no_probe_succeeds (calls : list (PingEnv * Z)) (s : St) : Prop :=
  match calls with
  | [] => True
  | (env, ttl) :: rest =>
      ~ probe_succeeds env (client s)
      /\ no_probe_succeeds rest (call (Ping env ttl) s).2
  end.

(** No call of the run gets as far as reading a datagram. *)
Fixpoint no_datagram_read (calls : list (PingEnv * Z)) (s : St) : Prop :=
  match calls with
  | [] => True
  | (env, ttl) :: rest =>
      (forall messageData n, ~ receives env (client s) messageData n)
      /\ no_datagram_read rest (call (Ping env ttl) s).2
  end.

(** The first successful probe of a run that starts with the client [pc]
    leaves its round trip in both [RTTMin] and [RTTMax]. *)
Definition first_probe_sets_both_bounds (pc : PingClient) (out : list Output)
    (calls : list (PingEnv * Z)) (env : PingEnv) (ttl : Z) : Prop :=
  forall s1,
    pings calls (start pc out) = Some s1 ->
    no_probe_succeeds calls (start pc out) ->
    probe_succeeds env (client s1) ->
    RTTMin (client (call (Ping env ttl) s1).2) = elapsed_ms env
    /\ RTTMax (client (call (Ping env ttl) s1).2) = elapsed_ms env.

(** ** Statements about the report *)

(** The report never reads a partly updated record: wherever its reads fall
    during a call, it prints what it prints before the call or what it
    prints after the call. *)
Definition report_reads_whole_updates (env : PingEnv) (ttl : Z) (s : St) : Prop :=
  forall when,
    interrupted_report env ttl s when = report (client s)
    \/ interrupted_report env ttl s when = report (client (call (Ping env ttl) s).2).

(** The records the client goes through in a call that reads and parses a
    datagram of at least one byte, one record per assignment, in the order
    of the text: [pc.Seq++], [pc.PacketOut++], [pc.RTTMin = dur_ms] and
    [pc.RTTMax = dur_ms] under their conditions, [pc.TotalTime += dur_ms],
    [pc.PacketIn++]. *)
Definition call_assignments (dur_ms : float) (pc : PingClient) : list PingClient :=
  let pc1 := set_Seq (GoInt.incr (Seq pc)) pc in
  let pc2 := set_PacketOut (GoInt.incr (PacketOut pc1)) pc1 in
  let pc3 := if (dur_ms <? RTTMin pc2)%float then set_RTTMin dur_ms pc2 else pc2 in
  let pc4 := if (RTTMax pc3 <? dur_ms)%float then set_RTTMax dur_ms pc3 else pc3 in
  let pc5 := set_TotalTime (TotalTime pc4 + dur_ms)%float pc4 in
  let pc6 := set_PacketIn (GoInt.incr (PacketIn pc5)) pc5 in
  [pc1; pc2]
  ++ (if (dur_ms <? RTTMin pc2)%float then [pc3] else [])
  ++ (if (RTTMax pc3 <? dur_ms)%float then [pc4] else [])
  ++ [pc5; pc6].

(** The fields the report reads have, in [pc'], the value they have in [a]
    or the value they have in [b]; the two the call never assigns have the
    value they have in [a]. *)
Definition each_field_from (a b pc' : PingClient) : Prop :=
  (PacketOut pc' = PacketOut a \/ PacketOut pc' = PacketOut b)
  /\ (PacketIn pc' = PacketIn a \/ PacketIn pc' = PacketIn b)
  /\ (RTTMin pc' = RTTMin a \/ RTTMin pc' = RTTMin b)
  /\ (RTTMax pc' = RTTMax a \/ RTTMax pc' = RTTMax b)
  /\ (TotalTime pc' = TotalTime a \/ TotalTime pc' = TotalTime b)
  /\ PLost pc' = PLost a
  /\ MsgSize pc' = MsgSize a.

(** [m] is the smaller, or the larger, of [a] and [b] in the order of
    [float64]. *)
Definition is_min (m a b : float) : Prop :=
  (m = a \/ m = b) /\ (m <=? a)%float = true /\ (m <=? b)%float = true.

Definition is_max (m a b : float) : Prop :=
  (m = a \/ m = b) /\ (a <=? m)%float = true /\ (b <=? m)%float = true.

Ltac ping_unfold :=
  unfold call, Ping, opens_socket, request, proto_of, network_of, msgType_of,
    mbind, get_pc, ListenPacket, SetTTL, or_panic, must, try, check, assign, print,
    mret, return_, panic in *.

(** ** More sample environments *)

(** The encoder rejects the request. *)
Definition encode_error_env : PingEnv :=
  {| os_Getpid := 70000;
     icmp_ListenPacket := fun _ _ => None;
     SetHopLimit := fun _ => None;
     make_bytes := fun _ => None;
     Marshal := fun _ => inl "invalid body"%string;
     WriteTo := fun b _ => inr (len b);
     SetReadDeadline := None;
     ReadFrom := inl "unused"%string;
     elapsed_ms := 0;
     ParseMessage := fun _ => inl "unused"%string |}.

(** The write takes one byte less than it was given. *)
Definition short_write_env : PingEnv :=
  {| os_Getpid := 4242;
     icmp_ListenPacket := fun _ _ => None;
     SetHopLimit := fun _ => None;
     make_bytes := fun _ => None;
     Marshal := fun m =>
       match msg_Body m with
       | Echo _ _ Data => inr (replicate 8 Byte.x00 ++ Data)
       | _ => inl "invalid body"%string
       end;
     WriteTo := fun b _ => inr (len b - 1);
     SetReadDeadline := None;
     ReadFrom := inl "unused"%string;
     elapsed_ms := 0;
     ParseMessage := fun _ => inl "unused"%string |}.

(** The deadline cannot be set. *)
Definition deadline_error_env : PingEnv :=
  {| os_Getpid := 4242;
     icmp_ListenPacket := fun _ _ => None;
     SetHopLimit := fun _ => None;
     make_bytes := fun _ => None;
     Marshal := fun m =>
       match msg_Body m with
       | Echo _ _ Data => inr (replicate 8 Byte.x00 ++ Data)
       | _ => inl "invalid body"%string
       end;
     WriteTo := fun b _ => inr (len b);
     SetReadDeadline := Some "use of closed network connection"%string;
     ReadFrom := inl "unused"%string;
     elapsed_ms := 0;
     ParseMessage := fun _ => inl "unused"%string |}.

(** A datagram of 3 bytes arrives, too short to parse. *)
Definition parse_error_env (ms : float) : PingEnv :=
  sample_env None None (inr 3) ms (inl "message too short"%string).

(** A datagram of no bytes that the parser accepts. *)
Definition empty_datagram_env : PingEnv :=
  sample_env None None (inr 0) 1 (inr (Echo 4242 0 [])).

(** The state after a call that ran into the deadline and one whose socket
    did not open: nothing has been read yet. *)
Definition cold_state : St :=
  (call (Ping no_socket_env 64) (call (Ping timeout_env 64) (sample_start 8)).2).2.

(** * Facts about the model *)

(** ** Go's [int] *)

Lemma wrap_in_range z : GoInt.in_range (GoInt.wrap z).
Proof.
  unfold GoInt.in_range, GoInt.wrap, GoInt.min_int, GoInt.max_int, GoInt.bits.
  pose proof (Z.mod_pos_bound (z - - 2 ^ (64 - 1)) (2 ^ 64) ltac:(lia)).
  lia.
Qed.

Lemma wrap_id z : GoInt.in_range z -> GoInt.wrap z = z.
Proof.
  unfold GoInt.in_range, GoInt.wrap, GoInt.min_int, GoInt.max_int, GoInt.bits.
  intros H. rewrite Z.mod_small; lia.
Qed.

Lemma incr_no_overflow x :
  GoInt.in_range x -> x < GoInt.max_int -> GoInt.incr x = x + 1.
Proof.
  intros [Hlo Hhi] Hlt. unfold GoInt.incr, GoInt.add. apply wrap_id.
  unfold GoInt.in_range in *. lia.
Qed.

Lemma sub_no_overflow x y : GoInt.in_range (x - y) -> GoInt.sub x y = x - y.
Proof. apply wrap_id. Qed.

(** ** The comparison loop *)

Lemma mismatch_loop_count k : forall i messageData Data pLost,
  (i + k <= length messageData)%nat ->
  (i + k <= length Data)%nat ->
  GoInt.in_range pLost ->
  pLost + Z.of_nat k <= GoInt.max_int ->
  mismatch_loop k i messageData Data pLost =
    Some (pLost + Z.of_nat (length (filter (fun j => messageData !! j <> Data !! j) (seq i k)))).
Proof.
  induction k as [|k IH]; intros i md d acc Hmd Hd Hacc Hmax; simpl.
  - f_equal. lia.
  - destruct (lookup_lt_is_Some_2 md i ltac:(lia)) as [x Hx].
    destruct (lookup_lt_is_Some_2 d i ltac:(lia)) as [y Hy].
    rewrite Hx, Hy.
    rewrite filter_cons, Hx, Hy.
    assert (Hlen := length_filter (fun j => md !! j <> d !! j) (seq (S i) k)).
    rewrite length_seq in Hlen.
    destruct Hacc as [Hlo Hhi].
    destruct (decide (x = y)) as [->|Hne].
    + rewrite bool_decide_false by (intros H; now apply H).
      rewrite decide_False by (intros H; now apply H).
      apply IH; try lia. split; lia.
    + rewrite bool_decide_true by exact Hne.
      rewrite decide_True by congruence.
      rewrite incr_no_overflow by (first [split; lia | lia]).
      rewrite IH; try lia.
      * simpl length. f_equal. lia.
      * split; unfold GoInt.min_int, GoInt.max_int, GoInt.bits in *; lia.
Qed.

(** The loop never reads out of range and its counter never wraps: the
    value of [pLost] is the count the comparison rule gives. *)
Lemma echo_pLost_spec (messageData Data : list Byte.byte) :
  len messageData <= GoInt.max_int ->
  echo_pLost messageData Data = Some (lost_bytes_spec messageData Data).
Proof.
  intros Hmax. unfold echo_pLost, lost_bytes_spec, len in *.
  assert (Hmin : GoInt.min_int < 0) by reflexivity.
  destruct (Z.ltb_spec (Z.of_nat (length Data)) (Z.of_nat (length messageData))) as [Hlt|Hge].
  - rewrite sub_no_overflow by (unfold GoInt.in_range; lia).
    unfold GoInt.add. rewrite wrap_id by (unfold GoInt.in_range; lia).
    rewrite mismatch_loop_count; try lia.
    + reflexivity.
    + unfold GoInt.in_range; lia.
  - rewrite mismatch_loop_count; try lia.
    + reflexivity.
    + unfold GoInt.in_range. pose proof wrap_in_range 0. 
      unfold GoInt.max_int, GoInt.bits. lia.
Qed.


(** ** The exit paths of [Ping] *)

Ltac ping_family s :=
  unfold parses, receives, sends, encodes in *;
  unfold taken_state, timed_state, sent_state, open_state in *;
  repeat match goal with
    | H : _ /\ _ |- _ => destruct H
    | H : exists _, _ |- _ => destruct H
    end;
  ping_unfold;
  destruct s as [pc cs out ws]; cbn [client conns stdout written] in *;
  destruct (family pc) as [[proto network] msgType]; cbn [fst snd] in *;
  match goal with
  | |- context [icmp_ListenPacket ?e ?a ?b] =>
      destruct (icmp_ListenPacket e a b) eqn:?; try discriminate
  end.

Ltac ping_run :=
  repeat first
    [ progress cbn beta iota
    | progress cbn [negb]
    | match goal with
      | H : ?l = _ |- context [match ?l with _ => _ end] => rewrite H
      | H : ?l = _ |- context [if ?l then _ else _] => rewrite H
      | H : ?l = _ |- context [negb ?l] => rewrite H
      | |- context [negb (?a =? ?a)] => rewrite (Z.eqb_refl a)
      end ].

Ltac ping_done :=
  cbn [client conns stdout written PacketOut PacketIn Seq];
  unfold timed_writes, timed, max_updated, min_updated, taken, counted, opened;
  cbn [client conns stdout written];
  rewrite <- ?app_assoc, ?app_nil_r; cbn [app];
  reflexivity.

(** [icmp.ListenPacket] fails: the error is returned, nothing has changed. *)
Lemma Ping_no_socket env ttl s :
  opens_socket env (client s) = false ->
  exists err,
    icmp_ListenPacket env (network_of (client s)) "0.0.0.0"%string = Some err
    /\ call (Ping env ttl) s = (Return (Some err), s).
Proof.
  intros H. ping_family s; ping_run; eexists; (split; reflexivity).
Qed.

(** [bytes.Repeat] panics, with the socket open. *)
Lemma Ping_repeat_panic env ttl s msg :
  opens_socket env (client s) = true ->
  bytes_Repeat env ["a"%byte] (MsgSize (client s)) = inl msg ->
  call (Ping env ttl) s = (Panic msg, open_state env ttl s).
Proof.
  intros H1 H2. ping_family s; ping_run; ping_done.
Qed.

(** [m.Marshal] fails. *)
Lemma Ping_encode_error env ttl s messageData err :
  opens_socket env (client s) = true ->
  bytes_Repeat env ["a"%byte] (MsgSize (client s)) = inr messageData ->
  Marshal env (request env (client s) messageData) = inl err ->
  call (Ping env ttl) s = (Return (Some err), sent_state env ttl s).
Proof.
  intros H1 H2 H3. ping_family s; ping_run; ping_done.
Qed.

(** [c.WriteTo] fails. *)
Lemma Ping_send_error env ttl s messageData marsh err :
  encodes env (client s) messageData marsh ->
  WriteTo env marsh (IPAddr (client s)) = inl err ->
  call (Ping env ttl) s = (Return (Some err), sent_state env ttl s).
Proof.
  intros H1 H2. ping_family s; ping_run; ping_done.
Qed.

(** [c.WriteTo] writes fewer or more bytes than were encoded. *)
Lemma Ping_short_write env ttl s messageData marsh n :
  encodes env (client s) messageData marsh ->
  WriteTo env marsh (IPAddr (client s)) = inr n ->
  n <> len marsh ->
  call (Ping env ttl) s =
    (Return (Some ("error marshalling message" ++ newline)%string), sent_state env ttl s).
Proof.
  intros H1 H2 H3. apply Z.eqb_neq in H3.
  ping_family s; ping_run; ping_done.
Qed.

(** [c.SetReadDeadline] fails. *)
Lemma Ping_deadline_error env ttl s messageData err :
  sends env (client s) messageData ->
  SetReadDeadline env = Some err ->
  call (Ping env ttl) s = (Return (Some err), sent_state env ttl s).
Proof.
  intros H1 H2.
  ping_family s; ping_run; ping_done.
Qed.

(** [c.ReadFrom] fails; the deadline running out is one such failure. *)
Lemma Ping_read_error env ttl s messageData err :
  sends env (client s) messageData ->
  SetReadDeadline env = None ->
  ReadFrom env = inl err ->
  call (Ping env ttl) s = (Return (Some err), sent_state env ttl s).
Proof.
  intros H1 H2 H3.
  ping_family s; ping_run; ping_done.
Qed.

(** Up to the round trip being recorded, with the two comparisons of
    [dur_ms] decided either way. *)
Ltac ping_received :=
  ping_run;
  unfold timed_writes, timed, max_updated, min_updated, taken, counted;
  cbn [client RTTMin RTTMax TotalTime PacketIn PacketOut Seq
       set_PacketOut set_Seq set_RTTMin set_RTTMax set_TotalTime set_PacketIn];
  match goal with
  | |- context [(?d <? RTTMin ?c)%float] => destruct (d <? RTTMin c)%float
  end;
  cbn [client RTTMin RTTMax TotalTime PacketIn PacketOut Seq
       set_PacketOut set_Seq set_RTTMin set_RTTMax set_TotalTime set_PacketIn];
  match goal with
  | |- context [(RTTMax ?c <? ?d)%float] => destruct (RTTMax c <? d)%float
  end;
  ping_run.

Lemma bytes_Repeat_len env (b : Byte.byte) (count : Z) (r : list Byte.byte) :
  bytes_Repeat env [b] count = inr r -> len r = count.
Proof.
  unfold bytes_Repeat, len.
  destruct (Z.eqb_spec count 0) as [->|Hz]; [now intros [= <-]|].
  destruct (Z.ltb_spec count 0) as [|Hc]; [discriminate|].
  destruct (negb _); [discriminate|].
  destruct (make_bytes env _); [discriminate|].
  intros [= <-].
  assert (H : forall k, length (concat (replicate k [b])) = k)
    by (induction k; simpl; congruence).
  rewrite H. lia.
Qed.

(** [ReadFrom] reports a length the 500 byte buffer cannot have. *)
Lemma Ping_slice_panic env ttl s messageData n :
  receives env (client s) messageData n ->
  ~ 0 <= n <= 500 ->
  call (Ping env ttl) s = (Panic "slice bounds out of range", timed_state env ttl [] s).
Proof.
  intros H1 H2.
  assert (Hn : (0 <=? n) && (n <=? 500) = false).
  { apply andb_false_iff. rewrite Z.leb_gt, Z.leb_gt. lia. }
  ping_family s; ping_received; ping_done.
Qed.

(** [icmp.ParseMessage] fails. *)
Lemma Ping_parse_error env ttl s messageData n err :
  receives env (client s) messageData n ->
  0 <= n <= 500 ->
  ParseMessage env (proto_of (client s)) = inl err ->
  call (Ping env ttl) s = (Return (Some err), timed_state env ttl [] s).
Proof.
  intros H1 H2 H3.
  assert (Hn : (0 <=? n) && (n <=? 500) = true).
  { apply andb_true_iff. rewrite !Z.leb_le. lia. }
  ping_family s; ping_received; ping_done.
Qed.

(** A datagram of no bytes that parses all the same. *)
Lemma Ping_empty env ttl s messageData rMsg :
  receives env (client s) messageData 0 ->
  ParseMessage env (proto_of (client s)) = inr rMsg ->
  call (Ping env ttl) s =
    (Return None, timed_state env ttl [Out_time_limit_exceeded] s).
Proof.
  intros H1 H2.
  ping_family s; ping_received; ping_done.
Qed.

(** The reply parses to a message whose body is not an Echo. *)
Lemma Ping_non_echo env ttl s messageData n rMsg :
  parses env (client s) messageData n rMsg ->
  is_Echo (msg_Body rMsg) = false ->
  call (Ping env ttl) s = (Return None, taken_state env ttl [] s).
Proof.
  intros H1 H2.
  assert (Hn : (0 <=? n) && (n <=? 500) = true).
  { apply andb_true_iff. rewrite !Z.leb_le. unfold parses in H1. lia. }
  assert (Hz : (n =? 0) = false).
  { apply Z.eqb_neq. unfold parses in H1. lia. }
  ping_family s; ping_received;
    destruct (msg_Body rMsg); try discriminate; ping_done.
Qed.

(** The reply parses to an Echo; the comparison either yields a count or
    reads out of range. *)
Lemma Ping_echo_any env ttl s messageData n rMsg ID EchoSeq Data :
  parses env (client s) messageData n rMsg ->
  msg_Body rMsg = Echo ID EchoSeq Data ->
  call (Ping env ttl) s =
    match echo_pLost messageData Data with
    | Some pLost =>
        (Return None,
         taken_state env ttl
           (if len Data <? len messageData then []
            else [received_line env (client s) messageData Data pLost])
           s)
    | None => (Panic "index out of range", taken_state env ttl [] s)
    end.
Proof.
  intros H1 H2.
  assert (Hn : (0 <=? n) && (n <=? 500) = true).
  { apply andb_true_iff. rewrite !Z.leb_le. unfold parses in H1. lia. }
  assert (Hz : (n =? 0) = false).
  { apply Z.eqb_neq. unfold parses in H1. lia. }
  unfold received_line.
  destruct (echo_pLost messageData Data) as [pLost|] eqn:Hp;
    ping_family s; ping_received;
    try destruct (len Data <? len messageData); ping_done.
Qed.

(** The reply parses to an Echo, and the payload has a length a slice can
    have: the call returns. *)
Lemma Ping_echo env ttl s messageData n rMsg ID EchoSeq Data :
  parses env (client s) messageData n rMsg ->
  msg_Body rMsg = Echo ID EchoSeq Data ->
  MsgSize (client s) <= GoInt.max_int ->
  call (Ping env ttl) s =
    (Return None,
     taken_state env ttl
       (if len Data <? len messageData then []
        else [received_line env (client s) messageData Data
                (lost_bytes_spec messageData Data)])
       s).
Proof.
  intros H1 H2 H3.
  rewrite (Ping_echo_any env ttl s messageData n rMsg ID EchoSeq Data H1 H2).
  rewrite echo_pLost_spec; [reflexivity|].
  unfold parses, receives, sends, encodes in H1.
  destruct H1 as (((marsh & (_ & Hr & _) & _) & _) & _).
  now rewrite (bytes_Repeat_len _ _ _ _ Hr).
Qed.

(** Every call ends in one of five kinds of state: nothing done, the socket
    opened, the request counted, the round trip recorded, the reply
    counted. *)
Lemma Ping_cases env ttl s e s' :
  call (Ping env ttl) s = (e, s') ->
  (opens_socket env (client s) = false /\ s' = s /\ exists err, e = Return (Some err))
  \/ (opens_socket env (client s) = true /\
      ((s' = open_state env ttl s /\ exists msg, e = Panic msg)
       \/ (s' = sent_state env ttl s /\ exists err, e = Return (Some err))
       \/ (exists out, s' = timed_state env ttl out s)
       \/ (exists out, s' = taken_state env ttl out s))).
Proof.
  intros H.
  destruct (opens_socket env (client s)) eqn:Ho.
  2:{ destruct (Ping_no_socket env ttl s Ho) as (err & _ & Hc).
      rewrite Hc in H. injection H as <- <-. left. eauto. }
  right. split; [reflexivity|].
  destruct (bytes_Repeat env ["a"%byte] (MsgSize (client s))) as [msg|md] eqn:Hr.
  { rewrite (Ping_repeat_panic env ttl s msg Ho Hr) in H.
    injection H as <- <-. left. eauto. }
  destruct (Marshal env (request env (client s) md)) as [err|marsh] eqn:Hm.
  { rewrite (Ping_encode_error env ttl s md err Ho Hr Hm) in H.
    injection H as <- <-. right; left. eauto. }
  assert (He : encodes env (client s) md marsh) by (unfold encodes; auto).
  destruct (WriteTo env marsh (IPAddr (client s))) as [err|n] eqn:Hw.
  { rewrite (Ping_send_error env ttl s md marsh err He Hw) in H.
    injection H as <- <-. right; left. eauto. }
  destruct (Z.eq_dec n (len marsh)) as [->|Hn].
  2:{ rewrite (Ping_short_write env ttl s md marsh n He Hw Hn) in H.
      injection H as <- <-. right; left. eauto. }
  assert (Hs : sends env (client s) md) by (exists marsh; auto).
  destruct (SetReadDeadline env) as [err|] eqn:Hd.
  { rewrite (Ping_deadline_error env ttl s md err Hs Hd) in H.
    injection H as <- <-. right; left. eauto. }
  destruct (ReadFrom env) as [err|n] eqn:Hrd.
  { rewrite (Ping_read_error env ttl s md err Hs Hd Hrd) in H.
    injection H as <- <-. right; left. eauto. }
  assert (Hrc : receives env (client s) md n) by (unfold receives; auto).
  destruct (decide (0 <= n <= 500)) as [Hb|Hb].
  2:{ rewrite (Ping_slice_panic env ttl s md n Hrc Hb) in H.
      injection H as <- <-. right; right; left. eauto. }
  destruct (ParseMessage env (proto_of (client s))) as [err|rMsg] eqn:Hp.
  { rewrite (Ping_parse_error env ttl s md n err Hrc Hb Hp) in H.
    injection H as <- <-. right; right; left. eauto. }
  destruct (decide (n = 0)) as [->|Hz].
  { rewrite (Ping_empty env ttl s md rMsg Hrc Hp) in H.
    injection H as <- <-. right; right; left. eauto. }
  assert (Hps : parses env (client s) md n rMsg)
    by (unfold parses; repeat split; auto; lia).
  destruct (msg_Body rMsg) as [ID EchoSeq Data| | |] eqn:Hbody.
  { rewrite (Ping_echo_any env ttl s md n rMsg ID EchoSeq Data Hps Hbody) in H.
    destruct (echo_pLost md Data); injection H as <- <-;
      right; right; right; eauto. }
  all: rewrite (Ping_non_echo env ttl s md n rMsg Hps) in H
         by (rewrite Hbody; reflexivity);
       injection H as <- <-; right; right; right; eauto.
Qed.

(** ** What a call does to the client record *)

Lemma Ping_client env ttl s e s' :
  call (Ping env ttl) s = (e, s') ->
  (opens_socket env (client s) = false /\ client s' = client s)
  \/ (opens_socket env (client s) = true /\
      ((client s' = client s /\ exists msg, e = Panic msg)
       \/ client s' = counted (client s)
       \/ client s' = timed (elapsed_ms env) (counted (client s))
       \/ client s' = taken (timed (elapsed_ms env) (counted (client s))))).
Proof.
  intros H. destruct (Ping_cases env ttl s e s' H) as
    [(Ho & -> & _) | (Ho & [(-> & Hp) | [(-> & _) | [(out & ->) | (out & ->)]]])];
    [left | right; split; [assumption|] ..]; auto.
Qed.

Ltac client_fields :=
  unfold taken, timed, max_updated, min_updated, counted;
  repeat match goal with
    | |- context [if ?b then _ else _] => destruct b
    end;
  reflexivity.

Lemma counted_fields pc :
  Seq (counted pc) = GoInt.incr (Seq pc)
  /\ PacketOut (counted pc) = GoInt.incr (PacketOut pc)
  /\ PacketIn (counted pc) = PacketIn pc
  /\ PLost (counted pc) = PLost pc
  /\ RTTMin (counted pc) = RTTMin pc
  /\ RTTMax (counted pc) = RTTMax pc
  /\ TotalTime (counted pc) = TotalTime pc
  /\ IPv4 (counted pc) = IPv4 pc
  /\ MsgSize (counted pc) = MsgSize pc.
Proof. repeat split. Qed.

Lemma timed_fields d pc :
  Seq (timed d pc) = Seq pc
  /\ PacketOut (timed d pc) = PacketOut pc
  /\ PacketIn (timed d pc) = PacketIn pc
  /\ PLost (timed d pc) = PLost pc
  /\ IPv4 (timed d pc) = IPv4 pc
  /\ MsgSize (timed d pc) = MsgSize pc.
Proof. repeat split; client_fields. Qed.

Lemma taken_fields pc :
  Seq (taken pc) = Seq pc
  /\ PacketOut (taken pc) = PacketOut pc
  /\ PacketIn (taken pc) = GoInt.incr (PacketIn pc)
  /\ PLost (taken pc) = PLost pc
  /\ RTTMin (taken pc) = RTTMin pc
  /\ RTTMax (taken pc) = RTTMax pc
  /\ TotalTime (taken pc) = TotalTime pc
  /\ IPv4 (taken pc) = IPv4 pc
  /\ MsgSize (taken pc) = MsgSize pc.
Proof. repeat split. Qed.

(** No call assigns [PLost], [IPv4] or [MsgSize]. *)
Lemma Ping_keeps env ttl s e s' :
  call (Ping env ttl) s = (e, s') ->
  PLost (client s') = PLost (client s)
  /\ IPv4 (client s') = IPv4 (client s)
  /\ MsgSize (client s') = MsgSize (client s).
Proof.
  intros H.
  destruct (Ping_client env ttl s e s' H) as
    [(_ & ->) | (_ & [(-> & _) | [-> | [-> | ->]]])]; auto;
    repeat split; client_fields.
Qed.

(** The two counters go up together, and only when the socket opens. *)
Lemma Ping_counts env ttl s err s' :
  call (Ping env ttl) s = (Return err, s') ->
  if opens_socket env (client s)
  then Seq (client s') = GoInt.incr (Seq (client s))
       /\ PacketOut (client s') = GoInt.incr (PacketOut (client s))
  else Seq (client s') = Seq (client s)
       /\ PacketOut (client s') = PacketOut (client s).
Proof.
  intros H.
  destruct (Ping_client env ttl s _ s' H) as
    [(-> & ->) | (-> & [(_ & msg & [=]) | [-> | [-> | ->]]])]; auto;
    split; client_fields.
Qed.

(** [PacketIn] goes up by one or stays, and goes up only with [PacketOut]. *)
Lemma Ping_PacketIn env ttl s e s' :
  call (Ping env ttl) s = (e, s') ->
  PacketIn (client s') = PacketIn (client s)
  \/ (PacketIn (client s') = GoInt.incr (PacketIn (client s))
      /\ PacketOut (client s') = GoInt.incr (PacketOut (client s))).
Proof.
  intros H.
  destruct (Ping_client env ttl s e s' H) as
    [(_ & ->) | (_ & [(-> & _) | [-> | [-> | ->]]])]; auto.
  - left. client_fields.
  - right. split; client_fields.
Qed.

(** ** Runs of calls *)

Lemma pings_cons env ttl rest s s' :
  pings ((env, ttl) :: rest) s = Some s' ->
  exists err s1, call (Ping env ttl) s = (Return err, s1) /\ pings rest s1 = Some s'.
Proof.
  simpl. destruct (call (Ping env ttl) s) as [[err|msg] s1]; [eauto | discriminate].
Qed.

Lemma opens_socket_family env pc pc' :
  IPv4 pc = IPv4 pc' -> opens_socket env pc = opens_socket env pc'.
Proof.
  intros H. unfold opens_socket, network_of, family. now rewrite H.
Qed.

Lemma opened_calls_family pc pc' calls :
  IPv4 pc = IPv4 pc' -> opened_calls pc calls = opened_calls pc' calls.
Proof.
  intros H. unfold opened_calls. f_equal.
  apply list_filter_iff. intros [env ttl]. simpl.
  now rewrite (opens_socket_family env pc pc' H).
Qed.

Lemma opened_calls_cons pc env ttl rest :
  opened_calls pc ((env, ttl) :: rest) =
    ((if opens_socket env pc then 1 else 0) + opened_calls pc rest)%nat.
Proof.
  unfold opened_calls. rewrite filter_cons. cbn [fst].
  destruct (opens_socket env pc); destruct (decide _); try congruence;
    reflexivity.
Qed.

Lemma opened_calls_le pc calls : (opened_calls pc calls <= length calls)%nat.
Proof. unfold opened_calls. apply length_filter. Qed.

(** What [NewClient] returns when the address resolves. *)
Lemma NewClient_fields resolve addr msgSize pc out :
  NewClient resolve addr msgSize = (inr pc, out) ->
  PacketOut pc = 0 /\ PacketIn pc = 0 /\ Seq pc = 0 /\ PLost pc = 0
  /\ TotalTime pc = 0%float /\ RTTMax pc = (-1e5)%float /\ RTTMin pc = 1e5%float
  /\ MsgSize pc = msgSize.
Proof.
  unfold NewClient. destruct (resolve _ addr); [discriminate|].
  intros [= <- _]. repeat split.
Qed.

(** Over a run that starts with [PacketIn <= PacketOut <= k] and stays below
    the largest [int], the order is kept. *)
Lemma pings_received_le_sent calls : forall s s' k,
  pings calls s = Some s' ->
  0 <= PacketIn (client s) <= PacketOut (client s) ->
  PacketOut (client s) <= k ->
  k + Z.of_nat (length calls) <= GoInt.max_int ->
  0 <= PacketIn (client s') <= PacketOut (client s')
  /\ PacketOut (client s') <= k + Z.of_nat (length calls).
Proof.
  induction calls as [|[env ttl] rest IH]; intros s s' k Hrun Hin Hout Hmax.
  - injection Hrun as <-. simpl. lia.
  - destruct (pings_cons env ttl rest s s' Hrun) as (err & s1 & Hc & Hrest).
    simpl length in *.
    assert (Hmin : GoInt.min_int < 0) by reflexivity.
    assert (Ho : PacketOut (client s1) = PacketOut (client s)
                 \/ PacketOut (client s1) = PacketOut (client s) + 1).
    { pose proof (Ping_counts env ttl s err s1 Hc) as Hcnt.
      destruct (opens_socket env (client s)); destruct Hcnt as [_ HP]; [right|left]; auto.
      rewrite HP. apply incr_no_overflow; [split; lia | lia]. }
    assert (Hi : PacketIn (client s1) = PacketIn (client s)
                 \/ (PacketIn (client s1) = PacketIn (client s) + 1
                     /\ PacketOut (client s1) = PacketOut (client s) + 1)).
    { destruct (Ping_PacketIn env ttl s _ s1 Hc) as [HI | [HI HP]]; [left; auto|right].
      rewrite HI, HP. rewrite !incr_no_overflow; [auto | split; lia | lia | split; lia | lia]. }
    destruct (IH s1 s' (k + 1) Hrest) as [H1 H2]; lia.
Qed.

(** [Seq] and [PacketOut] move together. *)
Lemma pings_Seq_PacketOut calls : forall s s',
  pings calls s = Some s' ->
  Seq (client s) = PacketOut (client s) ->
  Seq (client s') = PacketOut (client s').
Proof.
  induction calls as [|[env ttl] rest IH]; intros s s' Hrun Heq.
  - now injection Hrun as <-.
  - destruct (pings_cons env ttl rest s s' Hrun) as (err & s1 & Hc & Hrest).
    apply (IH s1 s' Hrest).
    pose proof (Ping_counts env ttl s err s1 Hc) as Hcnt.
    destruct (opens_socket env (client s)); destruct Hcnt as [-> ->]; congruence.
Qed.

(** ** Connections *)

Lemma dom_opened env network ttl (cs : gmap nat Conn) :
  dom (opened env network ttl cs) = {[ fresh (dom cs) ]} ∪ dom cs.
Proof. unfold opened. cbn zeta. now rewrite dom_alter_L, dom_insert_L. Qed.

Lemma Ping_conns env ttl s e s' :
  call (Ping env ttl) s = (e, s') ->
  opens_socket env (client s) = true ->
  conns s' = opened env (network_of (client s)) ttl (conns s).
Proof.
  intros H Ho.
  destruct (Ping_cases env ttl s e s' H) as
    [(Hn & _) | (_ & [(-> & _) | [(-> & _) | [(out & ->) | (out & ->)]]])];
    [congruence | reflexivity ..].
Qed.

(** ** The order of [float64] *)

Lemma SFcompare_antisym x y :
  SFcompare y x = option_map CompOpp (SFcompare x y).
Proof.
  destruct x as [sx|sx| |sx mx ex], y as [sy|sy| |sy my ey]; simpl;
    try (destruct sx); try (destruct sy); try reflexivity;
    pose proof (Pos.compare_cont_antisym mx my Eq) as Ha; simpl in Ha;
    rewrite (Z.compare_antisym ex ey);
    destruct (ex ?= ey)%Z; simpl; try reflexivity;
    rewrite <- Ha; now rewrite ?CompOpp_involutive.
Qed.

Lemma SFcompare_refl x : x <> S754_nan -> SFcompare x x = Some Eq.
Proof.
  destruct x as [s|s| |s m e]; simpl; intros H; try congruence;
    destruct s; try reflexivity;
    now rewrite Z.compare_refl, Pos.compare_cont_refl.
Qed.

Lemma SFcompare_None x y :
  SFcompare x y = None -> x = S754_nan \/ y = S754_nan.
Proof.
  destruct x as [s|s| |s m e], y as [s'|s'| |s' m' e']; simpl; auto; discriminate.
Qed.

Lemma not_nan_spec (x : float) : is_nan x = false -> Prim2SF x <> S754_nan.
Proof.
  unfold is_nan. rewrite FloatAxioms.eqb_spec. unfold SFeqb.
  intros H Hn. rewrite Hn in H. discriminate H.
Qed.

Lemma ltb_not_nan_l (x y : float) : (x <? y)%float = true -> is_nan x = false.
Proof.
  rewrite ltb_spec. unfold SFltb, is_nan. rewrite FloatAxioms.eqb_spec. unfold SFeqb.
  intros H.
  destruct (Prim2SF x) as [s|s| |s m e] eqn:Hx;
    [ | | simpl in H; discriminate H | ];
    now rewrite SFcompare_refl.
Qed.

Lemma ltb_not_nan_r (x y : float) : (x <? y)%float = true -> is_nan y = false.
Proof.
  rewrite ltb_spec. unfold SFltb, is_nan. rewrite FloatAxioms.eqb_spec. unfold SFeqb.
  intros H.
  destruct (Prim2SF y) as [s|s| |s m e] eqn:Hy;
    [ | | destruct (Prim2SF x); simpl in H; discriminate H | ];
    now rewrite SFcompare_refl.
Qed.

Lemma leb_refl (x : float) : is_nan x = false -> (x <=? x)%float = true.
Proof.
  intros H. rewrite leb_spec. unfold SFleb.
  now rewrite (SFcompare_refl _ (not_nan_spec x H)).
Qed.

Lemma ltb_leb (x y : float) : (x <? y)%float = true -> (x <=? y)%float = true.
Proof.
  rewrite ltb_spec, leb_spec. unfold SFltb, SFleb.
  destruct (SFcompare (Prim2SF x) (Prim2SF y)) as [[]|]; congruence.
Qed.

Lemma not_ltb_leb (x y : float) :
  is_nan x = false -> is_nan y = false ->
  (x <? y)%float = false -> (y <=? x)%float = true.
Proof.
  intros Hx Hy. rewrite ltb_spec, leb_spec. unfold SFltb, SFleb.
  rewrite (SFcompare_antisym (Prim2SF x) (Prim2SF y)).
  destruct (SFcompare (Prim2SF x) (Prim2SF y)) as [[]|] eqn:Hc; simpl; try congruence.
  destruct (SFcompare_None _ _ Hc) as [H|H];
    [now apply not_nan_spec in Hx | now apply not_nan_spec in Hy].
Qed.

(** The two conditional assignments compute the minimum and the maximum. *)
Lemma min_updated_is_min d pc :
  is_nan d = false -> is_nan (RTTMin pc) = false ->
  is_min (RTTMin (min_updated d pc)) (RTTMin pc) d.
Proof.
  intros Hd Hm. unfold min_updated, is_min.
  destruct (d <? RTTMin pc)%float eqn:Hlt; cbn [RTTMin set_RTTMin].
  - split; [auto|]. split; [now apply ltb_leb | now apply leb_refl].
  - split; [auto|]. split; [now apply leb_refl | now apply not_ltb_leb].
Qed.

Lemma max_updated_is_max d pc :
  is_nan d = false -> is_nan (RTTMax pc) = false ->
  is_max (RTTMax (max_updated d pc)) (RTTMax pc) d.
Proof.
  intros Hd Hm. unfold max_updated, is_max.
  destruct (RTTMax pc <? d)%float eqn:Hlt; cbn [RTTMax set_RTTMax].
  - split; [auto|]. split; [now apply ltb_leb | now apply leb_refl].
  - split; [auto|]. split; [now apply leb_refl | now apply not_ltb_leb].
Qed.

Lemma timed_RTT d pc :
  RTTMin (timed d pc) = RTTMin (min_updated d pc)
  /\ RTTMax (timed d pc) = RTTMax (max_updated d pc)
  /\ TotalTime (timed d pc) = (TotalTime pc + d)%float.
Proof.
  unfold timed, max_updated, min_updated.
  destruct (d <? RTTMin pc)%float;
    cbn [RTTMax set_RTTMin];
    destruct (RTTMax pc <? d)%float; repeat split.
Qed.

(** Once a datagram is read, every exit of the call has recorded the round
    trip. *)
Lemma Ping_received_client env ttl s messageData n e s' :
  receives env (client s) messageData n ->
  call (Ping env ttl) s = (e, s') ->
  client s' = timed (elapsed_ms env) (counted (client s))
  \/ client s' = taken (timed (elapsed_ms env) (counted (client s))).
Proof.
  intros Hrc H.
  destruct (decide (0 <= n <= 500)) as [Hb|Hb].
  2:{ rewrite (Ping_slice_panic env ttl s messageData n Hrc Hb) in H.
      injection H as <- <-. left. reflexivity. }
  destruct (ParseMessage env (proto_of (client s))) as [err|rMsg] eqn:Hp.
  { rewrite (Ping_parse_error env ttl s messageData n err Hrc Hb Hp) in H.
    injection H as <- <-. left. reflexivity. }
  destruct (decide (n = 0)) as [->|Hz].
  { rewrite (Ping_empty env ttl s messageData rMsg Hrc Hp) in H.
    injection H as <- <-. left. reflexivity. }
  assert (Hps : parses env (client s) messageData n rMsg)
    by (unfold parses; split; [exact Hrc|]; split; [lia | exact Hp]).
  destruct (msg_Body rMsg) as [ID EchoSeq Data| | |] eqn:Hbody.
  { rewrite (Ping_echo_any env ttl s messageData n rMsg ID EchoSeq Data Hps Hbody) in H.
    destruct (echo_pLost messageData Data); injection H as <- <-; right; reflexivity. }
  all: rewrite (Ping_non_echo env ttl s messageData n rMsg Hps) in H
         by (rewrite Hbody; reflexivity);
       injection H as <- <-; right; reflexivity.
Qed.

Lemma Ping_received_RTT env ttl s messageData n e s' :
  receives env (client s) messageData n ->
  call (Ping env ttl) s = (e, s') ->
  RTTMin (client s') = RTTMin (min_updated (elapsed_ms env) (client s))
  /\ RTTMax (client s') = RTTMax (max_updated (elapsed_ms env) (client s))
  /\ TotalTime (client s') = (TotalTime (client s) + elapsed_ms env)%float.
Proof.
  intros Hrc H.
  destruct (timed_RTT (elapsed_ms env) (counted (client s))) as (Hmin & Hmax & Htot).
  destruct (Ping_received_client env ttl s messageData n e s' Hrc H) as [-> | ->];
    cbn [taken RTTMin RTTMax TotalTime set_PacketIn];
    rewrite Hmin, Hmax, Htot;
    unfold max_updated, min_updated, counted;
    cbn [RTTMin RTTMax TotalTime set_PacketOut set_Seq];
    repeat match goal with
      | |- context [if ?b then _ else _] => destruct b
      end;
    repeat split.
Qed.

(** ** How far a call gets *)

(** Every call ends in one of three ways: no datagram was read; one was
    read but is not counted (bad length, parse failure, or no bytes); one
    was read, parsed and counted. *)
Lemma Ping_paths env ttl s e s' :
  call (Ping env ttl) s = (e, s') ->
  ((forall messageData n, ~ receives env (client s) messageData n)
   /\ (s' = s \/ s' = open_state env ttl s \/ s' = sent_state env ttl s))
  \/ (exists messageData n out,
        receives env (client s) messageData n
        /\ (forall rMsg, ~ parses env (client s) messageData n rMsg)
        /\ (out = [] \/ (n = 0 /\ e = Return None /\ out = [Out_time_limit_exceeded]))
        /\ s' = timed_state env ttl out s)
  \/ (exists messageData n rMsg out,
        parses env (client s) messageData n rMsg
        /\ (out = [] \/ exists Data pLost,
                          out = [received_line env (client s) messageData Data pLost])
        /\ s' = taken_state env ttl out s).
Proof.
  intros H.
  destruct (opens_socket env (client s)) eqn:Ho.
  2:{ destruct (Ping_no_socket env ttl s Ho) as (err & _ & Hc).
      rewrite Hc in H. injection H as <- <-. left. split; [|auto].
      intros md n ((marsh & (Ho' & _) & _) & _). congruence. }
  destruct (bytes_Repeat env ["a"%byte] (MsgSize (client s))) as [msg|md] eqn:Hr.
  { rewrite (Ping_repeat_panic env ttl s msg Ho Hr) in H.
    injection H as <- <-. left. split; [|auto].
    intros md n ((marsh & (_ & Hr' & _) & _) & _). congruence. }
  destruct (Marshal env (request env (client s) md)) as [err|marsh] eqn:Hm.
  { rewrite (Ping_encode_error env ttl s md err Ho Hr Hm) in H.
    injection H as <- <-. left. split; [|auto].
    intros md' n ((marsh & (_ & Hr' & Hm') & _) & _). congruence. }
  assert (He : encodes env (client s) md marsh) by (unfold encodes; auto).
  destruct (WriteTo env marsh (IPAddr (client s))) as [err|n] eqn:Hw.
  { rewrite (Ping_send_error env ttl s md marsh err He Hw) in H.
    injection H as <- <-. left. split; [|auto].
    intros md' n ((marsh' & (_ & Hr' & Hm') & Hw') & _). congruence. }
  destruct (Z.eq_dec n (len marsh)) as [->|Hn].
  2:{ rewrite (Ping_short_write env ttl s md marsh n He Hw Hn) in H.
      injection H as <- <-. left. split; [|auto].
      intros md' n' ((marsh' & (_ & Hr' & Hm') & Hw') & _).
      assert (md' = md) as -> by congruence.
      assert (marsh' = marsh) as -> by congruence.
      congruence. }
  assert (Hs : sends env (client s) md) by (exists marsh; auto).
  destruct (SetReadDeadline env) as [err|] eqn:Hd.
  { rewrite (Ping_deadline_error env ttl s md err Hs Hd) in H.
    injection H as <- <-. left. split; [|auto].
    intros md' n' (_ & Hd' & _). congruence. }
  destruct (ReadFrom env) as [err|n] eqn:Hrd.
  { rewrite (Ping_read_error env ttl s md err Hs Hd Hrd) in H.
    injection H as <- <-. left. split; [|auto].
    intros md' n' (_ & _ & Hrd'). congruence. }
  assert (Hrc : receives env (client s) md n) by (unfold receives; auto).
  right.
  destruct (decide (0 <= n <= 500)) as [Hb|Hb].
  2:{ rewrite (Ping_slice_panic env ttl s md n Hrc Hb) in H.
      injection H as <- <-. left. exists md, n, []. split; [auto|].
      split; [|split; [left; reflexivity | auto]].
      intros rMsg (_ & Hb' & _). lia. }
  destruct (ParseMessage env (proto_of (client s))) as [err|rMsg] eqn:Hp.
  { rewrite (Ping_parse_error env ttl s md n err Hrc Hb Hp) in H.
    injection H as <- <-. left. exists md, n, []. split; [auto|].
    split; [|split; [left; reflexivity | auto]].
    intros rMsg (_ & _ & Hp'). congruence. }
  destruct (decide (n = 0)) as [->|Hz].
  { rewrite (Ping_empty env ttl s md rMsg Hrc Hp) in H.
    injection H as <- <-. left. exists md, 0, [Out_time_limit_exceeded].
    split; [auto|]. split; [|split; [right; auto | auto]].
    intros rMsg' (_ & Hb' & _). lia. }
  assert (Hps : parses env (client s) md n rMsg)
    by (unfold parses; split; [exact Hrc|]; split; [lia | exact Hp]).
  right.
  destruct (msg_Body rMsg) as [ID EchoSeq Data| | |] eqn:Hbody.
  { rewrite (Ping_echo_any env ttl s md n rMsg ID EchoSeq Data Hps Hbody) in H.
    destruct (echo_pLost md Data); injection H as <- <-;
      eexists md, n, rMsg, _; (split; [exact Hps|]); (split; [|reflexivity]);
      try destruct (len Data <? len md); eauto. }
  all: rewrite (Ping_non_echo env ttl s md n rMsg Hps) in H
         by (rewrite Hbody; reflexivity);
       injection H as <- <-;
       exists md, n, rMsg, []; (split; [exact Hps|]); (split; [left|]); reflexivity.
Qed.

(** ** The RTT bounds over a run *)

(** A call that reads no datagram leaves the RTT statistics alone. *)
Lemma Ping_no_datagram env ttl s e s' :
  (forall messageData n, ~ receives env (client s) messageData n) ->
  call (Ping env ttl) s = (e, s') ->
  RTTMin (client s') = RTTMin (client s)
  /\ RTTMax (client s') = RTTMax (client s)
  /\ TotalTime (client s') = TotalTime (client s)
  /\ PacketIn (client s') = PacketIn (client s).
Proof.
  intros Hno H.
  destruct (Ping_paths env ttl s e s' H) as
    [(_ & Hs) | [(md & n & out & Hrc & _) | (md & n & rMsg & out & (Hrc & _) & _)]].
  - destruct Hs as [-> | [-> | ->]]; repeat split.
  - now destruct (Hno md n).
  - now destruct (Hno md n).
Qed.

Lemma pings_no_datagram calls : forall s s',
  pings calls s = Some s' ->
  no_datagram_read calls s ->
  RTTMin (client s') = RTTMin (client s)
  /\ RTTMax (client s') = RTTMax (client s)
  /\ TotalTime (client s') = TotalTime (client s)
  /\ PacketIn (client s') = PacketIn (client s).
Proof.
  induction calls as [|[env ttl] rest IH]; intros s s' Hrun Hno.
  - now injection Hrun as <-.
  - destruct (pings_cons env ttl rest s s' Hrun) as (err & s1 & Hc & Hrest).
    cbn [no_datagram_read] in Hno. rewrite Hc in Hno. cbn [snd] in Hno.
    destruct Hno as [Hno Hno'].
    destruct (Ping_no_datagram env ttl s _ s1 Hno Hc) as (Hmin & Hmax & HT & HI).
    destruct (IH s1 s' Hrest Hno') as (-> & -> & -> & ->). auto.
Qed.

(** With round trips that are numbers, the bounds stay numbers. *)
Lemma Ping_RTT_not_nan env ttl s e s' :
  is_nan (elapsed_ms env) = false ->
  is_nan (RTTMin (client s)) = false ->
  is_nan (RTTMax (client s)) = false ->
  call (Ping env ttl) s = (e, s') ->
  is_nan (RTTMin (client s')) = false /\ is_nan (RTTMax (client s')) = false.
Proof.
  intros Hd Hmin Hmax H.
  assert (Hread : forall md n, receives env (client s) md n ->
            is_nan (RTTMin (client s')) = false /\ is_nan (RTTMax (client s')) = false).
  { intros md n Hrc.
    destruct (Ping_received_RTT env ttl s md n e s' Hrc H) as (-> & -> & _).
    unfold min_updated, max_updated.
    destruct (elapsed_ms env <? RTTMin (client s))%float;
      destruct (RTTMax (client s) <? elapsed_ms env)%float;
      cbn [RTTMin RTTMax set_RTTMin set_RTTMax]; auto. }
  destruct (Ping_paths env ttl s e s' H) as
    [(_ & Hs) | [(md & n & out & Hrc & _) | (md & n & rMsg & out & (Hrc & _) & _)]].
  - destruct Hs as [-> | [-> | ->]]; auto.
  - exact (Hread md n Hrc).
  - exact (Hread md n Hrc).
Qed.

Lemma pings_RTT_not_nan calls : forall s s',
  pings calls s = Some s' ->
  Forall (fun c => is_nan (elapsed_ms c.1) = false) calls ->
  is_nan (RTTMin (client s)) = false ->
  is_nan (RTTMax (client s)) = false ->
  is_nan (RTTMin (client s')) = false /\ is_nan (RTTMax (client s')) = false.
Proof.
  induction calls as [|[env ttl] rest IH]; intros s s' Hrun Hall Hmin Hmax.
  - injection Hrun as <-. auto.
  - destruct (pings_cons env ttl rest s s' Hrun) as (err & s1 & Hc & Hrest).
    inversion Hall as [|c l Hd Hall']; subst. cbn [fst] in Hd.
    destruct (Ping_RTT_not_nan env ttl s _ s1 Hd Hmin Hmax Hc) as (Hmin1 & Hmax1).
    exact (IH s1 s' Hrest Hall' Hmin1 Hmax1).
Qed.

(** ** The records a call goes through *)

Lemma incr_neq (x : Z) : GoInt.incr x <> x.
Proof.
  unfold GoInt.incr, GoInt.add, GoInt.wrap. intros H.
  pose proof (Z.div_mod (x + 1 - GoInt.min_int) (2 ^ GoInt.bits) ltac:(discriminate)) as Hd.
  change (2 ^ GoInt.bits) with 18446744073709551616 in *.
  lia.
Qed.

(** The payload and the length read are fixed by the environment. *)
Lemma receives_inj env pc messageData n messageData' n' :
  receives env pc messageData n ->
  receives env pc messageData' n' ->
  messageData' = messageData /\ n' = n.
Proof.
  unfold receives, sends, encodes.
  intros ((marsh & (_ & Hr & _) & _) & _ & Hrd) ((marsh' & (_ & Hr' & _) & _) & _ & Hrd').
  split; congruence.
Qed.

(** Decides the two comparisons of the round trip against the bounds. *)
Ltac rtt_cases env s :=
  cbn [PacketOut PacketIn RTTMin RTTMax TotalTime Seq PLost MsgSize
       set_Seq set_PacketOut];
  destruct (elapsed_ms env <? RTTMin (client s))%float;
  cbn [PacketOut PacketIn RTTMin RTTMax TotalTime Seq PLost MsgSize
       set_Seq set_PacketOut set_RTTMin];
  destruct (RTTMax (client s) <? elapsed_ms env)%float;
  cbn [app].

Ltac fields_from :=
  repeat apply Forall_cons_2; try apply Forall_nil_2;
  unfold each_field_from;
  cbn [PacketOut PacketIn RTTMin RTTMax TotalTime PLost MsgSize
       set_Seq set_PacketOut set_RTTMin set_RTTMax set_TotalTime set_PacketIn];
  auto 10.

(** The records the report can find during a call, by how far the call
    gets. *)
Lemma Ping_snapshots env ttl s :
  exists l,
    snapshots env ttl s = client s :: l
    /\ l `prefix_of` call_assignments (elapsed_ms env) (client s)
    /\ Forall (each_field_from (client s) (client (call (Ping env ttl) s).2))
         (client s :: l)
    /\ (forall messageData n rMsg,
          parses env (client s) messageData n rMsg ->
          l = call_assignments (elapsed_ms env) (client s)).
Proof.
  destruct (call (Ping env ttl) s) as [e s'] eqn:Hc.
  unfold snapshots. rewrite Hc. cbn [snd].
  destruct (Ping_paths env ttl s e s' Hc) as
    [(Hno & Hs) | [(md & n & out & Hrc & Hno & _ & ->) | (md & n & rMsg & out & Hp & _ & ->)]].
  - assert (Hnp : forall md n rMsg, ~ parses env (client s) md n rMsg)
      by (intros md n rMsg (Hrc & _); exact (Hno md n Hrc)).
    destruct Hs as [-> | [-> | ->]].
    + exists []. rewrite drop_all.
      split; [reflexivity|]. split; [apply prefix_nil|].
      split; [fields_from | intros md n rMsg Hp; now destruct (Hnp md n rMsg)].
    + exists []. cbn [open_state written client]. rewrite drop_all.
      split; [reflexivity|]. split; [apply prefix_nil|].
      split; [fields_from | intros md n rMsg Hp; now destruct (Hnp md n rMsg)].
    + eexists. cbn [sent_state written client]. rewrite drop_app_length.
      split; [reflexivity|].
      split; [eexists; unfold call_assignments, counted; cbn [app]; reflexivity|].
      split; [|intros md n rMsg Hp; now destruct (Hnp md n rMsg)].
      unfold counted. fields_from.
  - eexists. cbn [timed_state sent_state written client].
    rewrite <- app_assoc, drop_app_length.
    split; [reflexivity|].
    split; [|split].
    + unfold call_assignments, timed_writes, timed, max_updated, min_updated, counted.
      rtt_cases env s; eexists; cbn [app]; reflexivity.
    + unfold timed_writes, timed, max_updated, min_updated, counted.
      rtt_cases env s; fields_from.
    + intros md' n' rMsg Hp.
      destruct (receives_inj env (client s) md n md' n' Hrc (proj1 Hp)) as [-> ->].
      now destruct (Hno rMsg).
  - eexists. cbn [taken_state timed_state sent_state written client].
    rewrite <- !app_assoc, drop_app_length.
    split; [reflexivity|].
    assert (Heq : [set_Seq (GoInt.incr (Seq (client s))) (client s); counted (client s)]
                  ++ timed_writes (elapsed_ms env) (counted (client s))
                  ++ [taken (timed (elapsed_ms env) (counted (client s)))]
                  = call_assignments (elapsed_ms env) (client s)).
    { unfold call_assignments, timed_writes, timed, max_updated, min_updated,
        taken, counted.
      rtt_cases env s; reflexivity. }
    split; [rewrite Heq; reflexivity|]. split; [|intros; exact Heq].
    unfold timed_writes, timed, max_updated, min_updated, taken, counted.
    rtt_cases env s; fields_from.
Qed.

(** * The claims *)

(** C2. For every sent payload [S] (of a length a Go slice can have) and
    received Echo payload [R], the per-attempt count computed by [Ping] is:
    if [len(R) < len(S)], [len(S) - len(R)] plus the number of indices
    [i < len(R)] with [S[i] != R[i]], the two added and not deduplicated;
    otherwise the number of indices [i < len(S)] with [S[i] != R[i]].  Sent
    "aaaaaaaa" and received "aaaa" give 4. *)
Theorem C2_lost_byte_count (S R : list Byte.byte) :
  len S <= GoInt.max_int ->
  echo_pLost S R =
    Some (if len R <? len S
          then (len S - len R) + Z.of_nat (mismatches (length R) S R)
          else Z.of_nat (mismatches (length S) S R))
  /\ echo_pLost (replicate 8 "a"%byte) (replicate 4 "a"%byte) = Some 4.
Proof.
  intros HS. split.
  - now apply echo_pLost_spec.
  - reflexivity.
Qed.

Lemma C2_lost_byte_count_witness :
  len (replicate 8 "a"%byte) <= GoInt.max_int
  /\ echo_pLost (replicate 8 "a"%byte) ("a"%byte :: "b"%byte :: "a"%byte :: "c"%byte :: nil)
     = Some 6.
Proof.
  split; [vm_compute; discriminate|].
  exact (proj1 (C2_lost_byte_count (replicate 8 "a"%byte)
                  ("a"%byte :: "b"%byte :: "a"%byte :: "c"%byte :: nil)
                  ltac:(vm_compute; discriminate))).
Defined.

(** Decides the path predicates on a sample environment. *)
Ltac sample_path :=
  unfold parses, receives, sends, encodes;
  repeat first
    [ split
    | eexists
    | reflexivity
    | lia
    | (vm_compute; discriminate) ].

(** C1 (what the code does instead).  The claim wants [PLost] to grow by the
    lost-byte count [L] of every Echo reply.  [Ping] computes [L] in the
    local [pLost] and never assigns [pc.PLost]: for every call that receives
    an Echo reply, of whatever [L], the call returns [nil] and [PLost] is what
    it was before the call. *)
Theorem C1_PLost_is_never_assigned env ttl s messageData n rMsg ID EchoSeq Data :
  parses env (client s) messageData n rMsg ->
  msg_Body rMsg = Echo ID EchoSeq Data ->
  MsgSize (client s) <= GoInt.max_int ->
  exists s',
    call (Ping env ttl) s = (Return None, s')
    /\ echo_pLost messageData Data = Some (lost_bytes_spec messageData Data)
    /\ PLost (client s') = PLost (client s).
Proof.
  intros Hp Hb Hm. eexists. split; [|split].
  - exact (Ping_echo env ttl s messageData n rMsg ID EchoSeq Data Hp Hb Hm).
  - apply echo_pLost_spec.
    unfold parses, receives, sends, encodes in Hp.
    destruct Hp as (((marsh & (_ & Hr & _) & _) & _) & _).
    now rewrite (bytes_Repeat_len _ _ _ _ Hr).
  - cbn [taken_state client]. client_fields.
Qed.

Lemma C1_PLost_is_never_assigned_witness :
  parses (echo_env 12.3 (replicate 4 "a"%byte)) (client (sample_start 8))
    (replicate 8 "a"%byte) 12
    {| msg_Type := ipv4_ICMPTypeEcho; msg_Code := 0;
       msg_Body := Echo 4242 0 (replicate 4 "a"%byte) |}
  /\ lost_bytes_spec (replicate 8 "a"%byte) (replicate 4 "a"%byte) = 4
  /\ PLost (client (sample_start 8)) = 0
  /\ exists s',
       call (Ping (echo_env 12.3 (replicate 4 "a"%byte)) 64) (sample_start 8)
         = (Return None, s')
       /\ echo_pLost (replicate 8 "a"%byte) (replicate 4 "a"%byte)
          = Some (lost_bytes_spec (replicate 8 "a"%byte) (replicate 4 "a"%byte))
       /\ PLost (client s') = PLost (client (sample_start 8)).
Proof.
  assert (Hp : parses (echo_env 12.3 (replicate 4 "a"%byte)) (client (sample_start 8))
                 (replicate 8 "a"%byte) 12
                 {| msg_Type := ipv4_ICMPTypeEcho; msg_Code := 0;
                    msg_Body := Echo 4242 0 (replicate 4 "a"%byte) |})
    by sample_path.
  split; [exact Hp|]. split; [reflexivity|]. split; [reflexivity|].
  exact (C1_PLost_is_never_assigned _ 64 (sample_start 8) _ _ _ 4242 0
           (replicate 4 "a"%byte) Hp eq_refl ltac:(vm_compute; discriminate)).
Defined.

(** C3 (what the code does instead).  The claim wants a reply of another
    kind than Echo to surface as an error and not to be counted as received.
    The type switch of [Ping] has the [*icmp.Echo] arm only, the function
    ends in [return nil], and [pc.PacketIn++] stands before the switch: for
    every call that reads a datagram parsing to a body of another kind, the
    call returns [nil], the datagram is counted in [PacketIn], [PLost] is
    what it was and nothing is printed.  So the claim fails at every such
    call. *)
Theorem C3_non_echo_is_counted_as_received env ttl s messageData n rMsg :
  parses env (client s) messageData n rMsg ->
  is_Echo (msg_Body rMsg) = false ->
  exists s',
    call (Ping env ttl) s = (Return None, s')
    /\ PacketIn (client s') = GoInt.incr (PacketIn (client s))
    /\ PLost (client s') = PLost (client s)
    /\ stdout s' = stdout s
    /\ ~ non_echo_is_an_error env ttl s.
Proof.
  intros Hp Hb.
  pose proof (Ping_non_echo env ttl s messageData n rMsg Hp Hb) as Hc.
  exists (taken_state env ttl [] s). split; [exact Hc|].
  split; [cbn [taken_state client]; client_fields|].
  split; [cbn [taken_state client]; client_fields|].
  split; [cbn [taken_state stdout]; apply app_nil_r|].
  unfold non_echo_is_an_error. rewrite Hc. cbn [fst].
  intros ([err Herr] & _). discriminate Herr.
Qed.

Lemma C3_non_echo_is_counted_as_received_witness :
  parses (time_exceeded_env 12.3) (client (sample_start 8)) (replicate 8 "a"%byte) 36
    {| msg_Type := ipv4_ICMPTypeEcho; msg_Code := 0;
       msg_Body := TimeExceeded (replicate 28 Byte.x00) |}
  /\ PacketIn (client (sample_start 8)) = 0
  /\ exists s',
       call (Ping (time_exceeded_env 12.3) 64) (sample_start 8) = (Return None, s')
       /\ PacketIn (client s') = 1
       /\ ~ non_echo_is_an_error (time_exceeded_env 12.3) 64 (sample_start 8).
Proof.
  assert (Hp : parses (time_exceeded_env 12.3) (client (sample_start 8))
                 (replicate 8 "a"%byte) 36
                 {| msg_Type := ipv4_ICMPTypeEcho; msg_Code := 0;
                    msg_Body := TimeExceeded (replicate 28 Byte.x00) |})
    by sample_path.
  split; [exact Hp|]. split; [reflexivity|].
  destruct (C3_non_echo_is_counted_as_received (time_exceeded_env 12.3) 64
              (sample_start 8) _ _ _ Hp eq_refl) as (s' & Hc & HI & _ & _ & Hno).
  exists s'. split; [exact Hc|]. split; [|exact Hno].
  rewrite HI. reflexivity.
Defined.

(** C5, the claim as stated, fails: when the socket cannot be opened the call
    returns before [pc.Seq++], and [Seq] stays where it was. *)
Lemma C5_counterexample :
  (call (Ping no_socket_env 64) (sample_start 8)).1
    = Return (Some "socket: operation not permitted"%string)
  /\ Seq (client (call (Ping no_socket_env 64) (sample_start 8)).2) = 0
  /\ Seq (client (sample_start 8)) = 0
  /\ ~ Seq_goes_up no_socket_env 64 (sample_start 8).
Proof.
  split; [vm_compute; reflexivity|].
  split; [vm_compute; reflexivity|].
  split; [reflexivity|].
  unfold Seq_goes_up. vm_compute. discriminate.
Qed.

(** C5 (amended).  Over any run of consecutive calls, [Seq] after the run is
    its value before the run plus the number of calls that opened their
    socket: a call that opens its socket adds exactly 1 on every exit path
    (encode failure, send error, short write, timeout, decode failure,
    success), and a call whose socket does not open adds nothing.  The run is
    short enough for [Seq] to stay below the largest [int]. *)
Theorem C5_Seq_counts_opened_sockets calls : forall s s',
  pings calls s = Some s' ->
  GoInt.in_range (Seq (client s)) ->
  Seq (client s) + Z.of_nat (length calls) <= GoInt.max_int ->
  Seq (client s') = Seq (client s) + Z.of_nat (opened_calls (client s) calls).
Proof.
  induction calls as [|[env ttl] rest IH]; intros s s' Hrun Hr Hmax.
  - injection Hrun as <-. unfold opened_calls. simpl. lia.
  - destruct (pings_cons env ttl rest s s' Hrun) as (err & s1 & Hc & Hrest).
    pose proof (Ping_counts env ttl s err s1 Hc) as Hcnt.
    destruct (Ping_keeps env ttl s _ s1 Hc) as (_ & Hv4 & _).
    rewrite opened_calls_cons.
    rewrite <- (opened_calls_family (client s1) (client s) rest Hv4).
    simpl length in Hmax.
    destruct Hr as [Hlo Hhi].
    destruct (opens_socket env (client s)).
    + destruct Hcnt as [HS _].
      rewrite incr_no_overflow in HS by (first [split; lia | lia]).
      rewrite (IH s1 s' Hrest); rewrite HS; try lia.
      split; lia.
    + destruct Hcnt as [HS _].
      rewrite (IH s1 s' Hrest); rewrite HS; try lia.
      split; lia.
Qed.

Lemma C5_Seq_counts_opened_sockets_witness :
  GoInt.in_range (Seq (client (sample_start 8)))
  /\ Seq (client (sample_start 8)) + Z.of_nat 3 <= GoInt.max_int
  /\ exists s',
       pings [(timeout_env, 64); (no_socket_env, 64);
              (echo_env 12.3 (replicate 8 "a"%byte), 64)] (sample_start 8) = Some s'
       /\ Seq (client s') = 2.
Proof.
  split; [vm_compute; split; discriminate|].
  split; [vm_compute; discriminate|].
  destruct (pings [(timeout_env, 64); (no_socket_env, 64);
                   (echo_env 12.3 (replicate 8 "a"%byte), 64)] (sample_start 8))
    as [s'|] eqn:Hrun; [|vm_compute in Hrun; discriminate Hrun].
  exists s'. split; [reflexivity|].
  exact (C5_Seq_counts_opened_sockets _ (sample_start 8) s' Hrun
           ltac:(vm_compute; split; discriminate)
           ltac:(vm_compute; discriminate)).
Defined.

(** C6.  A call that fails with a send error, or with a read error such as
    the receive deadline running out, returns that error, has moved
    [PacketOut] and [Seq] up by one, and leaves [PacketIn], [PLost],
    [RTTMin], [RTTMax] and [TotalTime] exactly as they were. *)
Theorem C6_failed_probe_only_counts_the_send env ttl s messageData marsh err :
  encodes env (client s) messageData marsh ->
  WriteTo env marsh (IPAddr (client s)) = inl err
  \/ (WriteTo env marsh (IPAddr (client s)) = inr (len marsh)
      /\ SetReadDeadline env = None
      /\ ReadFrom env = inl err) ->
  GoInt.in_range (PacketOut (client s)) -> PacketOut (client s) < GoInt.max_int ->
  GoInt.in_range (Seq (client s)) -> Seq (client s) < GoInt.max_int ->
  exists s',
    call (Ping env ttl) s = (Return (Some err), s')
    /\ PacketOut (client s') = PacketOut (client s) + 1
    /\ Seq (client s') = Seq (client s) + 1
    /\ PacketIn (client s') = PacketIn (client s)
    /\ PLost (client s') = PLost (client s)
    /\ RTTMin (client s') = RTTMin (client s)
    /\ RTTMax (client s') = RTTMax (client s)
    /\ TotalTime (client s') = TotalTime (client s).
Proof.
  intros He Hfail HPr HPm HSr HSm.
  exists (sent_state env ttl s). split.
  - destruct Hfail as [Hw | (Hw & Hd & Hr)].
    + exact (Ping_send_error env ttl s messageData marsh err He Hw).
    + apply (Ping_read_error env ttl s messageData err); auto.
      exists marsh. auto.
  - cbn [sent_state client].
    destruct (counted_fields (client s)) as (-> & -> & -> & -> & -> & -> & -> & _).
    rewrite !incr_no_overflow by assumption. repeat split.
Qed.

Lemma C6_failed_probe_only_counts_the_send_witness :
  encodes timeout_env (client (sample_start 8)) (replicate 8 "a"%byte)
    (replicate 8 Byte.x00 ++ replicate 8 "a"%byte)
  /\ exists s',
       call (Ping timeout_env 64) (sample_start 8) = (Return (Some "i/o timeout"%string), s')
       /\ PacketOut (client s') = 0 + 1
       /\ Seq (client s') = 0 + 1
       /\ PacketIn (client s') = 0
       /\ PLost (client s') = 0
       /\ RTTMin (client s') = 1e5%float
       /\ RTTMax (client s') = (-1e5)%float
       /\ TotalTime (client s') = 0%float.
Proof.
  assert (He : encodes timeout_env (client (sample_start 8)) (replicate 8 "a"%byte)
                 (replicate 8 Byte.x00 ++ replicate 8 "a"%byte)) by sample_path.
  split; [exact He|].
  refine (C6_failed_probe_only_counts_the_send timeout_env 64 (sample_start 8)
            _ _ "i/o timeout"%string He _ _ _ _ _).
  - right. repeat split.
  - vm_compute; split; discriminate.
  - reflexivity.
  - vm_compute; split; discriminate.
  - reflexivity.
Defined.

(** C4 (what the code does instead).  The claim wants the socket closed
    before [Ping] returns.  [Ping] never closes it: on every exit of a call
    that opened a socket, the descriptor the call was given, which was not
    in use before, is still open, and so is every connection that was open
    before the call. *)
Theorem C4_socket_is_left_open env ttl s e s' :
  opens_socket env (client s) = true ->
  call (Ping env ttl) s = (e, s') ->
  (fresh (dom (conns s)) ∉ dom (conns s))
  /\ (fresh (dom (conns s)) ∈ dom (conns s'))
  /\ (dom (conns s) ⊆ dom (conns s')).
Proof.
  intros Ho Hc.
  rewrite (Ping_conns env ttl s e s' Hc Ho), dom_opened.
  split; [apply is_fresh | split; set_solver].
Qed.

Lemma C4_socket_is_left_open_witness :
  opens_socket (echo_env 12.3 (replicate 8 "a"%byte)) (client (sample_start 8)) = true
  /\ (call (Ping (echo_env 12.3 (replicate 8 "a"%byte)) 64) (sample_start 8)).1 = Return None
  /\ (fresh (dom (conns (sample_start 8))) ∉ dom (conns (sample_start 8)))
  /\ (fresh (dom (conns (sample_start 8)))
       ∈ dom (conns (call (Ping (echo_env 12.3 (replicate 8 "a"%byte)) 64) (sample_start 8)).2))
  /\ (dom (conns (sample_start 8))
       ⊆ dom (conns (call (Ping (echo_env 12.3 (replicate 8 "a"%byte)) 64) (sample_start 8)).2)).
Proof.
  split; [reflexivity|]. split; [vm_compute; reflexivity|].
  exact (C4_socket_is_left_open (echo_env 12.3 (replicate 8 "a"%byte)) 64 (sample_start 8)
           _ _ eq_refl (surjective_pairing _)).
Defined.

(** C7.  In every state reached from a freshly constructed client by a run
    of [Ping] calls, whatever their outcomes, [PacketIn <= PacketOut]; the
    run has fewer than 2^63 calls, so that the counters have not wrapped. *)
Theorem C7_received_at_most_sent resolve addr msgSize pc out calls s' :
  NewClient resolve addr msgSize = (inr pc, out) ->
  pings calls (start pc out) = Some s' ->
  Z.of_nat (length calls) <= GoInt.max_int ->
  PacketIn (client s') <= PacketOut (client s').
Proof.
  intros Hnew Hrun Hlen.
  destruct (NewClient_fields resolve addr msgSize pc out Hnew) as (HO & HI & _).
  destruct (pings_received_le_sent calls (start pc out) s' 0 Hrun) as [H _];
    cbn [start client]; lia.
Qed.

Lemma C7_received_at_most_sent_witness :
  NewClient sample_resolver "one.one.one.one" 8 = (inr (client (sample_start 8)), stdout (sample_start 8))
  /\ Z.of_nat 3 <= GoInt.max_int
  /\ exists s',
       pings [(timeout_env, 64); (echo_env 12.3 (replicate 8 "a"%byte), 64);
              (time_exceeded_env 4.1, 64)] (sample_start 8) = Some s'
       /\ PacketIn (client s') = 2 /\ PacketOut (client s') = 3
       /\ PacketIn (client s') <= PacketOut (client s').
Proof.
  split; [reflexivity|]. split; [vm_compute; discriminate|].
  destruct (pings [(timeout_env, 64); (echo_env 12.3 (replicate 8 "a"%byte), 64);
                   (time_exceeded_env 4.1, 64)] (sample_start 8))
    as [s'|] eqn:Hrun; [|vm_compute in Hrun; discriminate Hrun].
  exists s'. split; [reflexivity|].
  split; [vm_compute in Hrun; injection Hrun as <-; reflexivity|].
  split; [vm_compute in Hrun; injection Hrun as <-; reflexivity|].
  exact (C7_received_at_most_sent sample_resolver "one.one.one.one" 8 _ _ _ s'
           eq_refl Hrun ltac:(vm_compute; discriminate)).
Defined.

(** C10.  In every state reached from a freshly constructed client by a run
    of [Ping] calls, whatever their outcomes, [Seq = PacketOut]: both start
    at 0 and every call moves both or neither. *)
Theorem C10_Seq_is_PacketOut resolve addr msgSize pc out calls s' :
  NewClient resolve addr msgSize = (inr pc, out) ->
  pings calls (start pc out) = Some s' ->
  Seq (client s') = PacketOut (client s').
Proof.
  intros Hnew Hrun.
  destruct (NewClient_fields resolve addr msgSize pc out Hnew) as (HO & _ & HS & _).
  apply (pings_Seq_PacketOut calls (start pc out) s' Hrun).
  cbn [start client]. congruence.
Qed.

Lemma C10_Seq_is_PacketOut_witness :
  NewClient sample_resolver "one.one.one.one" 8 = (inr (client (sample_start 8)), stdout (sample_start 8))
  /\ exists s',
       pings [(no_socket_env, 64); (send_error_env, 64);
              (echo_env 12.3 (replicate 8 "a"%byte), 64)] (sample_start 8) = Some s'
       /\ Seq (client s') = 2
       /\ Seq (client s') = PacketOut (client s').
Proof.
  split; [reflexivity|].
  destruct (pings [(no_socket_env, 64); (send_error_env, 64);
                   (echo_env 12.3 (replicate 8 "a"%byte), 64)] (sample_start 8))
    as [s'|] eqn:Hrun; [|vm_compute in Hrun; discriminate Hrun].
  exists s'. split; [reflexivity|].
  split; [vm_compute in Hrun; injection Hrun as <-; reflexivity|].
  exact (C10_Seq_is_PacketOut sample_resolver "one.one.one.one" 8 _ _ _ s' eq_refl Hrun).
Defined.
(** C8, the claim as stated, fails.  A datagram is timed as soon as it has
    been read, before it is parsed.  In the run below the first call reads,
    after 3 ms, a datagram that does not parse; the second call is the first
    successful probe, with a round trip of 12.3 ms, and leaves [RTTMin = 3]
    and [RTTMax = 12.3].  And a first round trip of 2e5 ms, which is not
    below the 1e5 that [NewClient] puts in [RTTMin], leaves [RTTMin] at
    1e5. *)
Lemma C8_counterexample :
  NewClient sample_resolver "one.one.one.one" 8
    = (inr (sample_client 8), stdout (sample_start 8))
  /\ (let s1 := (call (Ping (parse_error_env 3) 64) (sample_start 8)).2 in
      let s2 := (call (Ping (echo_env 12.3 (replicate 8 "a"%byte)) 64) s1).2 in
      RTTMin (client s2) = 3%float /\ RTTMax (client s2) = 12.3%float)
  /\ ~ first_probe_sets_both_bounds (sample_client 8) (stdout (sample_start 8))
         [(parse_error_env 3, 64)] (echo_env 12.3 (replicate 8 "a"%byte)) 64
  /\ ~ first_probe_sets_both_bounds (sample_client 8) (stdout (sample_start 8))
         [] (echo_env 2e5 (replicate 8 "a"%byte)) 64.
Proof.
  split; [reflexivity|]. split; [vm_compute; split; reflexivity|]. split.
  - intros H.
    destruct (H (call (Ping (parse_error_env 3) 64) (sample_start 8)).2) as [Hmin _].
    + vm_compute. reflexivity.
    + cbn [no_probe_succeeds]. split; [|exact I].
      intros (md & n & rMsg & (_ & _ & Hp) & _). vm_compute in Hp. discriminate Hp.
    + exists (replicate 8 "a"%byte), 16,
        {| msg_Type := ipv4_ICMPTypeEcho; msg_Code := 0;
           msg_Body := Echo 4242 0 (replicate 8 "a"%byte) |}.
      split; [sample_path | reflexivity].
    + apply (f_equal (fun v => (v <? 12)%float)) in Hmin.
      vm_compute in Hmin. discriminate Hmin.
  - intros H.
    destruct (H (sample_start 8)) as [Hmin _].
    + reflexivity.
    + exact I.
    + exists (replicate 8 "a"%byte), 16,
        {| msg_Type := ipv4_ICMPTypeEcho; msg_Code := 0;
           msg_Body := Echo 4242 0 (replicate 8 "a"%byte) |}.
      split; [sample_path | reflexivity].
    + apply (f_equal (fun v => (v <? 150000)%float)) in Hmin.
      vm_compute in Hmin. discriminate Hmin.
Qed.

(** C8 (amended).  [NewClient] sets [RTTMin] to 1e5 and [RTTMax] to -1e5.
    In a run that starts with the client [NewClient] built, and in which no
    call has read a datagram yet, a call that reads one after [r]
    milliseconds, [r] strictly between the two values, leaves
    [RTTMin = RTTMax = r], whether or not the datagram parses.  After any
    run, a call that reads a datagram after [r'] milliseconds leaves in
    [RTTMin] the smaller of [RTTMin] and [r'], and in [RTTMax] the larger of
    [RTTMax] and [r'].  A first round trip of 12.3 ms and a second of 4.1 ms
    give [RTTMin = 4.1] and [RTTMax = 12.3]. *)
Theorem C8_RTT_bounds :
  (forall resolve addr msgSize pc out,
     NewClient resolve addr msgSize = (inr pc, out) ->
     RTTMin pc = 1e5%float /\ RTTMax pc = (-1e5)%float)
  /\ (forall resolve addr msgSize pc out calls s1 env ttl messageData n e s',
        NewClient resolve addr msgSize = (inr pc, out) ->
        pings calls (start pc out) = Some s1 ->
        no_datagram_read calls (start pc out) ->
        receives env (client s1) messageData n ->
        (-1e5 <? elapsed_ms env)%float = true ->
        (elapsed_ms env <? 1e5)%float = true ->
        call (Ping env ttl) s1 = (e, s') ->
        RTTMin (client s') = elapsed_ms env /\ RTTMax (client s') = elapsed_ms env)
  /\ (forall resolve addr msgSize pc out calls s1 env ttl messageData n e s',
        NewClient resolve addr msgSize = (inr pc, out) ->
        pings calls (start pc out) = Some s1 ->
        Forall (fun c => is_nan (elapsed_ms c.1) = false) calls ->
        receives env (client s1) messageData n ->
        is_nan (elapsed_ms env) = false ->
        call (Ping env ttl) s1 = (e, s') ->
        is_min (RTTMin (client s')) (RTTMin (client s1)) (elapsed_ms env)
        /\ is_max (RTTMax (client s')) (RTTMax (client s1)) (elapsed_ms env))
  /\ (forall pc out,
        NewClient sample_resolver "one.one.one.one" 8 = (inr pc, out) ->
        let s1 := (call (Ping (echo_env 12.3 (replicate 8 "a"%byte)) 64) (start pc out)).2 in
        let s2 := (call (Ping (echo_env 4.1 (replicate 8 "a"%byte)) 64) s1).2 in
        RTTMin (client s1) = 12.3%float /\ RTTMax (client s1) = 12.3%float
        /\ RTTMin (client s2) = 4.1%float /\ RTTMax (client s2) = 12.3%float).
Proof.
  split; [|split; [|split]].
  - intros resolve addr msgSize pc out Hnew.
    destruct (NewClient_fields resolve addr msgSize pc out Hnew)
      as (_ & _ & _ & _ & _ & Hmax & Hmin & _).
    auto.
  - intros resolve addr msgSize pc out calls s1 env ttl messageData n e s'
      Hnew Hrun Hno Hrc Hlo Hhi Hc.
    destruct (NewClient_fields resolve addr msgSize pc out Hnew)
      as (_ & _ & _ & _ & _ & Hmax & Hmin & _).
    destruct (pings_no_datagram calls _ s1 Hrun Hno) as (Hmin1 & Hmax1 & _).
    cbn [start client] in Hmin1, Hmax1. rewrite Hmin in Hmin1. rewrite Hmax in Hmax1.
    destruct (Ping_received_RTT env ttl s1 messageData n e s' Hrc Hc) as (-> & -> & _).
    unfold min_updated, max_updated. rewrite Hmin1, Hmax1, Hlo, Hhi.
    split; reflexivity.
  - intros resolve addr msgSize pc out calls s1 env ttl messageData n e s'
      Hnew Hrun Hall Hrc Hd Hc.
    destruct (NewClient_fields resolve addr msgSize pc out Hnew)
      as (_ & _ & _ & _ & _ & Hmax & Hmin & _).
    destruct (pings_RTT_not_nan calls _ s1 Hrun Hall) as (Hmin1 & Hmax1).
    { cbn [start client]. now rewrite Hmin. }
    { cbn [start client]. now rewrite Hmax. }
    destruct (Ping_received_RTT env ttl s1 messageData n e s' Hrc Hc) as (-> & -> & _).
    split; [now apply min_updated_is_min | now apply max_updated_is_max].
  - intros pc out [= <- <-]. vm_compute. repeat split.
Qed.

Lemma C8_RTT_bounds_witness :
  NewClient sample_resolver "one.one.one.one" 8
    = (inr (sample_client 8), stdout (sample_start 8))
  /\ pings [(timeout_env, 64); (no_socket_env, 64)]
       (start (sample_client 8) (stdout (sample_start 8))) = Some cold_state
  /\ no_datagram_read [(timeout_env, 64); (no_socket_env, 64)]
       (start (sample_client 8) (stdout (sample_start 8)))
  /\ receives (echo_env 12.3 (replicate 8 "a"%byte)) (client cold_state)
       (replicate 8 "a"%byte) 16
  /\ (-1e5 <? 12.3)%float = true /\ (12.3 <? 1e5)%float = true
  /\ RTTMin (client (call (Ping (echo_env 12.3 (replicate 8 "a"%byte)) 64) cold_state).2)
     = 12.3%float
  /\ RTTMax (client (call (Ping (echo_env 12.3 (replicate 8 "a"%byte)) 64) cold_state).2)
     = 12.3%float.
Proof.
  assert (Hnew : NewClient sample_resolver "one.one.one.one" 8
                 = (inr (sample_client 8), stdout (sample_start 8))) by reflexivity.
  assert (Hrun : pings [(timeout_env, 64); (no_socket_env, 64)]
                   (start (sample_client 8) (stdout (sample_start 8))) = Some cold_state)
    by (vm_compute; reflexivity).
  assert (Hno : no_datagram_read [(timeout_env, 64); (no_socket_env, 64)]
                  (start (sample_client 8) (stdout (sample_start 8)))).
  { cbn [no_datagram_read]. repeat split;
      intros md n (_ & _ & Hrd); vm_compute in Hrd; discriminate Hrd. }
  assert (Hrc : receives (echo_env 12.3 (replicate 8 "a"%byte)) (client cold_state)
                  (replicate 8 "a"%byte) 16) by sample_path.
  split; [exact Hnew|]. split; [exact Hrun|]. split; [exact Hno|]. split; [exact Hrc|].
  split; [reflexivity|]. split; [reflexivity|].
  exact (proj1 (proj2 C8_RTT_bounds) sample_resolver "one.one.one.one"%string 8
           (sample_client 8) (stdout (sample_start 8))
           [(timeout_env, 64); (no_socket_env, 64)] cold_state
           (echo_env 12.3 (replicate 8 "a"%byte)) 64 (replicate 8 "a"%byte) 16 _ _
           Hnew Hrun Hno Hrc eq_refl eq_refl (surjective_pairing _)).
Defined.

(** ** The report against a running call *)

(** C9, the claim as stated, fails.  After one reply of 12.3 ms a second
    call reads a reply after 4.1 ms.  The interrupt is taken while it runs:
    the reads of the packet line fall after [pc.RTTMin = dur_ms], those of
    the RTT line after [pc.TotalTime += dur_ms] and before [pc.PacketIn++].
    The report divides the total of two round trips by one received packet
    and prints an average above the maximum; it is neither the report of
    before the call nor that of after it. *)
Lemma C9_counterexample :
  (exists avg,
     interrupted_report (echo_env 4.1 (replicate 8 "a"%byte)) 64 warm_state
       (fun i => if (i <? 7)%nat then 3%nat else 4%nat)
       = [Out_statistics 2 1 0; Out_rtt 4.1 avg 12.3]
     /\ (12.3 <? avg)%float = true)
  /\ report (client warm_state) = [Out_statistics 1 1 0; Out_rtt 12.3 12.3 12.3]
  /\ ~ report_reads_whole_updates (echo_env 4.1 (replicate 8 "a"%byte)) 64 warm_state.
Proof.
  split; [|split].
  - eexists. split; vm_compute; reflexivity.
  - vm_compute. reflexivity.
  - intros H.
    destruct (H (fun i => if (i <? 7)%nat then 3%nat else 4%nat)) as [Hr | Hr];
      apply (f_equal (fun r => match r with
                               | Out_statistics sent received _ :: _ => (sent, received)
                               | _ => (0, 0)
                               end)) in Hr;
      vm_compute in Hr; discriminate Hr.
Qed.

(** C9 (amended).  Nothing makes the report wait for a call of [Ping] or a
    call for the report; each read of the report falls after some number of
    the call's assignments.  The records it can find are the one before the
    call followed by one record per assignment, in the order [Seq],
    [PacketOut], [RTTMin], [RTTMax], [TotalTime], [PacketIn]: all of them
    when the call reads and parses a datagram of at least one byte, the
    first so many of them when it ends earlier.  Whatever point a read falls
    on, each field has its value of before the call or its value of after
    the call.  But the fields of one report need not come from the same
    side: for every call that reads and parses a datagram there are reads
    whose report is neither the one of before nor the one of after. *)
Theorem C9_report_reads_between_assignments env ttl s :
  snapshots env ttl s
    `prefix_of` client s :: call_assignments (elapsed_ms env) (client s)
  /\ (forall k,
        each_field_from (client s) (client (call (Ping env ttl) s).2)
          (record_at env ttl s k))
  /\ (forall messageData n rMsg,
        parses env (client s) messageData n rMsg ->
        snapshots env ttl s = client s :: call_assignments (elapsed_ms env) (client s)
        /\ ~ report_reads_whole_updates env ttl s).
Proof.
  destruct (Ping_snapshots env ttl s) as (l & Hs & Hpre & Hall & Hfull).
  split; [|split].
  - rewrite Hs. now apply prefix_cons.
  - intros k. unfold record_at. rewrite Hs.
    destruct ((client s :: l) !! k) as [pc'|] eqn:Hk; cbn [default].
    + exact (proj1 (Forall_lookup _ _) Hall k pc' Hk).
    + destruct (call (Ping env ttl) s) as [e s'] eqn:Hc. cbn [snd].
      destruct (Ping_keeps env ttl s e s' Hc) as (HP & _ & HM).
      unfold each_field_from. auto 10.
  - intros messageData n rMsg Hp.
    pose proof (Hfull messageData n rMsg Hp) as Hl. subst l.
    split; [exact Hs|].
    intros H.
    assert (Hat : record_at env ttl s 2 = counted (client s)).
    { unfold record_at. rewrite Hs. reflexivity. }
    assert (Hin : PacketIn (client (call (Ping env ttl) s).2)
                  = GoInt.incr (PacketIn (client s))).
    { destruct (call (Ping env ttl) s) as [e s'] eqn:Hc. cbn [snd].
      destruct (Ping_paths env ttl s e s' Hc) as
        [(Hno & _) | [(md & n' & out & Hrc & Hno & _) | (md & n' & rMsg' & out & _ & _ & ->)]].
      - now destruct (Hno messageData n (proj1 Hp)).
      - destruct (receives_inj env (client s) md n' messageData n Hrc (proj1 Hp))
          as [-> ->].
        now destruct (Hno rMsg).
      - cbn [taken_state client]. client_fields. }
    destruct (H (fun _ => 2%nat)) as [Hr | Hr];
      unfold interrupted_report in Hr; rewrite Hat in Hr.
    + apply (f_equal (fun r => match r with
                               | Out_statistics sent _ _ :: _ => sent
                               | _ => 0
                               end)) in Hr.
      unfold report, report_reads, counted in Hr.
      cbn [PacketOut set_PacketOut set_Seq] in Hr.
      exact (incr_neq _ Hr).
    + apply (f_equal (fun r => match r with
                               | Out_statistics _ received _ :: _ => received
                               | _ => 0
                               end)) in Hr.
      unfold report, report_reads, counted in Hr.
      cbn [PacketIn set_PacketOut set_Seq] in Hr.
      rewrite Hin in Hr. symmetry in Hr. exact (incr_neq _ Hr).
Qed.

Lemma C9_report_reads_between_assignments_witness :
  parses (echo_env 4.1 (replicate 8 "a"%byte)) (client warm_state)
    (replicate 8 "a"%byte) 16
    {| msg_Type := ipv4_ICMPTypeEcho; msg_Code := 0;
       msg_Body := Echo 4242 0 (replicate 8 "a"%byte) |}
  /\ snapshots (echo_env 4.1 (replicate 8 "a"%byte)) 64 warm_state
     = client warm_state :: call_assignments 4.1 (client warm_state)
  /\ length (call_assignments 4.1 (client warm_state)) = 5%nat
  /\ ~ report_reads_whole_updates (echo_env 4.1 (replicate 8 "a"%byte)) 64 warm_state.
Proof.
  assert (Hp : parses (echo_env 4.1 (replicate 8 "a"%byte)) (client warm_state)
                 (replicate 8 "a"%byte) 16
                 {| msg_Type := ipv4_ICMPTypeEcho; msg_Code := 0;
                    msg_Body := Echo 4242 0 (replicate 8 "a"%byte) |})
    by sample_path.
  split; [exact Hp|].
  destruct (proj2 (proj2 (C9_report_reads_between_assignments
                            (echo_env 4.1 (replicate 8 "a"%byte)) 64 warm_state))
              _ _ _ Hp) as [Hs Hno].
  split; [exact Hs|]. split; [vm_compute; reflexivity | exact Hno].
Defined.

(** * Further properties of the program *)

(** ** The payload comparison *)

Lemma mismatches_le n sent received : (mismatches n sent received <= n)%nat.
Proof.
  unfold mismatches. etransitivity; [apply length_filter|]. now rewrite length_seq.
Qed.

Lemma mismatches_zero n (sent received : list Byte.byte) :
  mismatches n sent received = 0%nat <->
  forall i, (i < n)%nat -> sent !! i = received !! i.
Proof.
  unfold mismatches. rewrite length_zero_iff_nil. split.
  - intros H i Hi.
    destruct (decide (sent !! i = received !! i)) as [|Hne]; [assumption|].
    exfalso. apply (filter_nil_not_elem_of _ _ i H Hne).
    apply elem_of_seq. lia.
  - intros H. induction n as [|n IH].
    + reflexivity.
    + rewrite seq_S, filter_app, IH by (intros i Hi; apply H; lia).
      simpl. rewrite filter_cons, decide_False; [reflexivity|].
      intros Hne. apply Hne, H. lia.
Qed.

Lemma mismatches_ext n (sent received received' : list Byte.byte) :
  (forall i, (i < n)%nat -> received !! i = received' !! i) ->
  mismatches n sent received = mismatches n sent received'.
Proof.
  unfold mismatches. induction n as [|n IH]; intros H; [reflexivity|].
  rewrite seq_S, !filter_app, !length_app, IH by (intros i Hi; apply H; lia).
  f_equal. simpl. rewrite !filter_cons, (H n) by lia. reflexivity.
Qed.

Lemma lost_bytes_spec_bounds (sent received : list Byte.byte) :
  0 <= lost_bytes_spec sent received <= len sent.
Proof.
  unfold lost_bytes_spec, len.
  destruct (Z.ltb_spec (Z.of_nat (length received)) (Z.of_nat (length sent))).
  - pose proof (mismatches_le (length received) sent received). lia.
  - pose proof (mismatches_le (length sent) sent received). lia.
Qed.

Lemma lost_bytes_spec_zero (sent received : list Byte.byte) :
  lost_bytes_spec sent received = 0 <-> sent `prefix_of` received.
Proof.
  unfold lost_bytes_spec, len.
  destruct (Z.ltb_spec (Z.of_nat (length received)) (Z.of_nat (length sent))) as [Hlt|Hge].
  - split.
    + intros H. lia.
    + intros Hp. apply prefix_length in Hp. lia.
  - rewrite <- Nat2Z.inj_0, Nat2Z.inj_iff, mismatches_zero. split.
    + intros H. exists (drop (length sent) received).
      rewrite <- (take_drop (length sent) received) at 1. f_equal.
      apply list_eq. intros i.
      destruct (decide (i < length sent)%nat) as [Hi|Hi].
      * rewrite lookup_take_lt by lia. symmetry. now apply H.
      * rewrite lookup_take_ge by lia. symmetry. apply lookup_ge_None. lia.
    + intros [k ->] i Hi. now rewrite lookup_app_l.
Qed.

(** X1.  The lost-byte count of a reply lies between 0 and the number of
    bytes sent, and it is 0 exactly when the bytes sent are a prefix of the
    bytes received. *)
Theorem X1_lost_count_range (S R : list Byte.byte) :
  len S <= GoInt.max_int ->
  exists L,
    echo_pLost S R = Some L
    /\ 0 <= L <= len S
    /\ (L = 0 <-> S `prefix_of` R).
Proof.
  intros HS. exists (lost_bytes_spec S R).
  split; [now apply echo_pLost_spec|].
  split; [apply lost_bytes_spec_bounds | apply lost_bytes_spec_zero].
Qed.

Lemma X1_lost_count_range_witness :
  len (replicate 8 "a"%byte) <= GoInt.max_int
  /\ exists L,
       echo_pLost (replicate 8 "a"%byte) (replicate 4 "a"%byte ++ "b"%byte :: replicate 3 "a"%byte)
         = Some L
       /\ 0 <= L <= len (replicate 8 "a"%byte)
       /\ (L = 0 <-> replicate 8 "a"%byte
                       `prefix_of` (replicate 4 "a"%byte ++ "b"%byte :: replicate 3 "a"%byte)).
Proof.
  split; [vm_compute; discriminate|].
  exact (X1_lost_count_range (replicate 8 "a"%byte)
           (replicate 4 "a"%byte ++ "b"%byte :: replicate 3 "a"%byte)
           ltac:(vm_compute; discriminate)).
Defined.

(** X2.  Bytes of the reply beyond the length of the request are not looked
    at: a reply at least as long as the request has the same count with any
    bytes appended. *)
Theorem X2_trailing_bytes_are_ignored (S R extra : list Byte.byte) :
  len S <= GoInt.max_int ->
  len S <= len R ->
  echo_pLost S (R ++ extra) = echo_pLost S R.
Proof.
  intros HS HR. rewrite !echo_pLost_spec by assumption. f_equal.
  unfold lost_bytes_spec, len in *. rewrite length_app.
  rewrite (proj2 (Z.ltb_ge _ _)) by lia.
  rewrite (proj2 (Z.ltb_ge _ _)) by lia.
  f_equal. apply mismatches_ext. intros i Hi.
  rewrite lookup_app_l by lia. reflexivity.
Qed.

Lemma X2_trailing_bytes_are_ignored_witness :
  len (replicate 4 "a"%byte) <= GoInt.max_int
  /\ len (replicate 4 "a"%byte) <= len ("a"%byte :: "b"%byte :: replicate 2 "a"%byte)
  /\ echo_pLost (replicate 4 "a"%byte)
       (("a"%byte :: "b"%byte :: replicate 2 "a"%byte) ++ replicate 3 "z"%byte)
     = Some 1.
Proof.
  split; [vm_compute; discriminate|]. split; [vm_compute; discriminate|].
  exact (X2_trailing_bytes_are_ignored (replicate 4 "a"%byte)
           ("a"%byte :: "b"%byte :: replicate 2 "a"%byte) (replicate 3 "z"%byte)
           ltac:(vm_compute; discriminate) ltac:(vm_compute; discriminate)).
Defined.

(** ** The request *)

Lemma bytes_Repeat_all env (b : Byte.byte) (count : Z) (r : list Byte.byte) :
  bytes_Repeat env [b] count = inr r -> Forall (fun x => x = b) r.
Proof.
  unfold bytes_Repeat. destruct (count =? 0); [now intros [= <-]|].
  destruct (count <? 0); [discriminate|].
  destruct (negb _); [discriminate|].
  destruct (make_bytes env _); [discriminate|].
  intros [= <-]. induction (Z.to_nat count); simpl; constructor; auto.
Qed.

Lemma bytes_Repeat_negative env (b : list Byte.byte) (count : Z) :
  count < 0 -> bytes_Repeat env b count = inl "bytes: negative Repeat count"%string.
Proof.
  intros Hneg. unfold bytes_Repeat.
  destruct (Z.eqb_spec count 0) as [Hz|_]; [lia|].
  now rewrite (proj2 (Z.ltb_lt _ _) Hneg).
Qed.

(** X3.  The message a call hands to the encoder is an Echo request of code
    0 whose identifier is the low 16 bits of the process id, whose sequence
    number is [Seq] as it was before the call, and whose payload is
    [MsgSize] bytes, each the letter a.  When the encoder rejects that
    message the call returns its error. *)
Theorem X3_request_contents env ttl s messageData err :
  opens_socket env (client s) = true ->
  bytes_Repeat env ["a"%byte] (MsgSize (client s)) = inr messageData ->
  Marshal env (request env (client s) messageData) = inl err ->
  (exists ID,
     msg_Body (request env (client s) messageData) = Echo ID (Seq (client s)) messageData
     /\ 0 <= ID < 65536
     /\ ID = os_Getpid env mod 65536)
  /\ msg_Code (request env (client s) messageData) = 0
  /\ msg_Type (request env (client s) messageData)
     = (if IPv4 (client s) then ipv4_ICMPTypeEcho else ipv6_ICMPTypeEchoRequest)
  /\ len messageData = MsgSize (client s)
  /\ Forall (fun b => b = "a"%byte) messageData
  /\ (call (Ping env ttl) s).1 = Return (Some err).
Proof.
  intros Ho Hr Hm. split; [|split; [|split; [|split; [|split]]]].
  - exists (Z.land (os_Getpid env) 65535). split; [reflexivity|].
    change 65535 with (Z.ones 16). rewrite Z.land_ones by lia.
    change (2 ^ 16) with 65536.
    split; [apply Z.mod_pos_bound; lia | reflexivity].
  - reflexivity.
  - unfold request, msgType_of, family. cbn [msg_Type]. now destruct (IPv4 (client s)).
  - exact (bytes_Repeat_len _ _ _ _ Hr).
  - exact (bytes_Repeat_all _ _ _ _ Hr).
  - now rewrite (Ping_encode_error env ttl s messageData err Ho Hr Hm).
Qed.

(** ** Edge cases of the message size *)

(** X4.  With a negative [MsgSize], a call whose socket opens panics in
    [bytes.Repeat]: nothing is counted, nothing is printed, and the socket
    it opened stays open. *)
Theorem X4_negative_size_panics env ttl s :
  MsgSize (client s) < 0 ->
  opens_socket env (client s) = true ->
  exists s',
    call (Ping env ttl) s = (Panic "bytes: negative Repeat count", s')
    /\ client s' = client s
    /\ stdout s' = stdout s
    /\ (fresh (dom (conns s)) ∈ dom (conns s')).
Proof.
  intros Hneg Ho. exists (open_state env ttl s). split.
  - apply Ping_repeat_panic; [exact Ho|].
    now apply bytes_Repeat_negative.
  - cbn [open_state client stdout conns]. repeat split.
    rewrite dom_opened. set_solver.
Qed.

Lemma X3_request_contents_witness :
  opens_socket encode_error_env (client (sample_start 8)) = true
  /\ bytes_Repeat encode_error_env ["a"%byte] (MsgSize (client (sample_start 8)))
     = inr (replicate 8 "a"%byte)
  /\ (exists ID,
        msg_Body (request encode_error_env (client (sample_start 8)) (replicate 8 "a"%byte))
          = Echo ID 0 (replicate 8 "a"%byte)
        /\ 0 <= ID < 65536
        /\ ID = 70000 mod 65536)
  /\ (call (Ping encode_error_env 64) (sample_start 8)).1 = Return (Some "invalid body"%string).
Proof.
  pose proof (X3_request_contents encode_error_env 64 (sample_start 8)
                (replicate 8 "a"%byte) "invalid body"%string eq_refl eq_refl eq_refl)
    as (HID & _ & _ & _ & _ & Hcall).
  split; [reflexivity|]. split; [reflexivity|]. split; [exact HID | exact Hcall].
Defined.

Lemma X4_negative_size_panics_witness :
  MsgSize (client (sample_start (-1))) < 0
  /\ opens_socket (echo_env 1 []) (client (sample_start (-1))) = true
  /\ exists s',
       call (Ping (echo_env 1 []) 64) (sample_start (-1))
         = (Panic "bytes: negative Repeat count", s')
       /\ client s' = client (sample_start (-1))
       /\ stdout s' = stdout (sample_start (-1))
       /\ (fresh (dom (conns (sample_start (-1)))) ∈ dom (conns s')).
Proof.
  split; [reflexivity|]. split; [reflexivity|].
  exact (X4_negative_size_panics (echo_env 1 []) 64 (sample_start (-1)) eq_refl eq_refl).
Defined.

(** ** What an Echo reply prints *)

(** X5.  A reply shorter than the request is counted and timed but prints
    no line. *)
Theorem X5_short_reply_prints_nothing env ttl s messageData n rMsg ID EchoSeq Data :
  parses env (client s) messageData n rMsg ->
  msg_Body rMsg = Echo ID EchoSeq Data ->
  MsgSize (client s) <= GoInt.max_int ->
  len Data < MsgSize (client s) ->
  exists s',
    call (Ping env ttl) s = (Return None, s')
    /\ stdout s' = stdout s
    /\ PacketIn (client s') = GoInt.incr (PacketIn (client s))
    /\ TotalTime (client s') = (TotalTime (client s) + elapsed_ms env)%float.
Proof.
  intros Hp Hb Hmax Hshort.
  assert (Hlen : len messageData = MsgSize (client s)).
  { unfold parses, receives, sends, encodes in Hp.
    destruct Hp as (((marsh & (_ & Hr & _) & _) & _) & _).
    exact (bytes_Repeat_len _ _ _ _ Hr). }
  eexists. split; [exact (Ping_echo env ttl s messageData n rMsg ID EchoSeq Data Hp Hb Hmax)|].
  rewrite Hlen, (proj2 (Z.ltb_lt _ _) Hshort).
  cbn [taken_state stdout client]. rewrite app_nil_r.
  split; [reflexivity|]. split; [client_fields|].
  cbn [taken TotalTime set_PacketIn].
  destruct (timed_RTT (elapsed_ms env) (counted (client s))) as (_ & _ & ->).
  reflexivity.
Qed.

Lemma X5_short_reply_prints_nothing_witness :
  parses (echo_env 12.3 (replicate 4 "a"%byte)) (client (sample_start 8))
    (replicate 8 "a"%byte) 12
    {| msg_Type := ipv4_ICMPTypeEcho; msg_Code := 0;
       msg_Body := Echo 4242 0 (replicate 4 "a"%byte) |}
  /\ len (replicate 4 "a"%byte) < MsgSize (client (sample_start 8))
  /\ exists s',
       call (Ping (echo_env 12.3 (replicate 4 "a"%byte)) 64) (sample_start 8) = (Return None, s')
       /\ stdout s' = stdout (sample_start 8)
       /\ PacketIn (client s') = GoInt.incr (PacketIn (client (sample_start 8)))
       /\ TotalTime (client s') = (TotalTime (client (sample_start 8)) + 12.3)%float.
Proof.
  assert (Hp : parses (echo_env 12.3 (replicate 4 "a"%byte)) (client (sample_start 8))
                 (replicate 8 "a"%byte) 12
                 {| msg_Type := ipv4_ICMPTypeEcho; msg_Code := 0;
                    msg_Body := Echo 4242 0 (replicate 4 "a"%byte) |})
    by sample_path.
  split; [exact Hp|]. split; [reflexivity|].
  exact (X5_short_reply_prints_nothing _ 64 (sample_start 8) _ _ _ 4242 0
           (replicate 4 "a"%byte) Hp eq_refl ltac:(vm_compute; discriminate) eq_refl).
Defined.

(** X6.  A reply at least as long as the request prints one line: the
    length of the reply's payload, the mismatches over the sent length as a
    percentage of the sent length, the target address, the round trip, and
    as [icmp_seq] the sequence number of the request plus one, since [Seq]
    has been incremented by the time the line is printed. *)
Theorem X6_reply_line env ttl s messageData n rMsg ID EchoSeq Data :
  parses env (client s) messageData n rMsg ->
  msg_Body rMsg = Echo ID EchoSeq Data ->
  MsgSize (client s) <= GoInt.max_int ->
  MsgSize (client s) <= len Data ->
  GoInt.in_range (Seq (client s)) -> Seq (client s) < GoInt.max_int ->
  exists s' requestSeq,
    call (Ping env ttl) s = (Return None, s')
    /\ msg_Body (request env (client s) messageData)
       = Echo (Z.land (os_Getpid env) 0xffff) requestSeq messageData
    /\ stdout s' = stdout s ++
         [Out_received (len Data)
            (float64 (Z.of_nat (mismatches (length messageData) messageData Data))
             / float64 (MsgSize (client s)) * 100)%float
            (IPAddr (client s)) (requestSeq + 1) (elapsed_ms env)].
Proof.
  intros Hp Hb Hmax Hlong HSr HSm.
  assert (Hlen : len messageData = MsgSize (client s)).
  { unfold parses, receives, sends, encodes in Hp.
    destruct Hp as (((marsh & (_ & Hr & _) & _) & _) & _).
    exact (bytes_Repeat_len _ _ _ _ Hr). }
  exists (taken_state env ttl
            [received_line env (client s) messageData Data
               (lost_bytes_spec messageData Data)] s), (Seq (client s)).
  split.
  - rewrite (Ping_echo env ttl s messageData n rMsg ID EchoSeq Data Hp Hb Hmax).
    rewrite Hlen, (proj2 (Z.ltb_ge _ _) Hlong). reflexivity.
  - split; [reflexivity|].
    cbn [taken_state stdout]. unfold received_line, lost_bytes_spec.
    rewrite Hlen, (proj2 (Z.ltb_ge _ _) Hlong).
    now rewrite incr_no_overflow.
Qed.

Lemma X6_reply_line_witness :
  parses (echo_env 12.3 ("a"%byte :: "b"%byte :: replicate 2 "a"%byte))
    (client (sample_start 4)) (replicate 4 "a"%byte) 12
    {| msg_Type := ipv4_ICMPTypeEcho; msg_Code := 0;
       msg_Body := Echo 4242 0 ("a"%byte :: "b"%byte :: replicate 2 "a"%byte) |}
  /\ exists s' requestSeq,
       call (Ping (echo_env 12.3 ("a"%byte :: "b"%byte :: replicate 2 "a"%byte)) 64)
         (sample_start 4) = (Return None, s')
       /\ msg_Body (request (echo_env 12.3 ("a"%byte :: "b"%byte :: replicate 2 "a"%byte))
                      (client (sample_start 4)) (replicate 4 "a"%byte))
          = Echo 4242 requestSeq (replicate 4 "a"%byte)
       /\ stdout s' = stdout (sample_start 4) ++
            [Out_received 4 25 sample_addr (requestSeq + 1) 12.3].
Proof.
  assert (Hp : parses (echo_env 12.3 ("a"%byte :: "b"%byte :: replicate 2 "a"%byte))
                 (client (sample_start 4)) (replicate 4 "a"%byte) 12
                 {| msg_Type := ipv4_ICMPTypeEcho; msg_Code := 0;
                    msg_Body := Echo 4242 0 ("a"%byte :: "b"%byte :: replicate 2 "a"%byte) |})
    by sample_path.
  split; [exact Hp|].
  exact (X6_reply_line _ 64 (sample_start 4) _ _ _ 4242 0
           ("a"%byte :: "b"%byte :: replicate 2 "a"%byte) Hp eq_refl
           ltac:(vm_compute; discriminate) ltac:(vm_compute; discriminate)
           ltac:(vm_compute; split; discriminate) eq_refl).
Defined.

(** X7.  With [MsgSize] 0 every Echo reply prints a line whose loss
    percentage is not a number: the count 0 is divided by the sent length
    0. *)
Theorem X7_empty_payload_prints_NaN env ttl s messageData n rMsg ID EchoSeq Data :
  MsgSize (client s) = 0 ->
  parses env (client s) messageData n rMsg ->
  msg_Body rMsg = Echo ID EchoSeq Data ->
  exists s' lossPercent,
    call (Ping env ttl) s = (Return None, s')
    /\ stdout s' = stdout s ++
         [Out_received (len Data) lossPercent (IPAddr (client s))
            (GoInt.incr (Seq (client s))) (elapsed_ms env)]
    /\ is_nan lossPercent = true.
Proof.
  intros Hz Hp Hb.
  assert (Hmd : messageData = []).
  { unfold parses, receives, sends, encodes in Hp.
    destruct Hp as (((marsh & (_ & Hr & _) & _) & _) & _).
    rewrite Hz in Hr. now injection Hr as <-. }
  subst messageData.
  assert (Hge : (len Data <? len (@nil Byte.byte)) = false)
    by (apply Z.ltb_ge; unfold len; simpl; lia).
  assert (Hl : lost_bytes_spec [] Data = 0)
    by (unfold lost_bytes_spec; now rewrite Hge).
  eexists _, _. split.
  - rewrite (Ping_echo env ttl s [] n rMsg ID EchoSeq Data Hp Hb) by (rewrite Hz; discriminate).
    rewrite Hge. reflexivity.
  - split; [reflexivity|]. rewrite Hl. reflexivity.
Qed.

Lemma X7_empty_payload_prints_NaN_witness :
  MsgSize (client (sample_start 0)) = 0
  /\ parses (echo_env 12.3 []) (client (sample_start 0)) [] 8
       {| msg_Type := ipv4_ICMPTypeEcho; msg_Code := 0; msg_Body := Echo 4242 0 [] |}
  /\ exists s' lossPercent,
       call (Ping (echo_env 12.3 []) 64) (sample_start 0) = (Return None, s')
       /\ stdout s' = stdout (sample_start 0) ++
            [Out_received (len (@nil Byte.byte)) lossPercent
               (IPAddr (client (sample_start 0)))
               (GoInt.incr (Seq (client (sample_start 0)))) 12.3]
       /\ is_nan lossPercent = true.
Proof.
  assert (Hp : parses (echo_env 12.3 []) (client (sample_start 0)) [] 8
                 {| msg_Type := ipv4_ICMPTypeEcho; msg_Code := 0; msg_Body := Echo 4242 0 [] |})
    by sample_path.
  split; [reflexivity|]. split; [exact Hp|].
  exact (X7_empty_payload_prints_NaN (echo_env 12.3 []) 64 (sample_start 0) [] 8 _ 4242 0 []
           eq_refl Hp eq_refl).
Defined.

(** ** Errors around the exchange *)

(** X8.  An encode failure, a write of another length than was encoded, and
    a failure to set the read deadline all end the call the same way: the
    error is returned (for the wrong length, the fixed message "error
    marshalling message" and a newline), the request has been counted in
    [Seq] and [PacketOut], and nothing else has changed or been printed. *)
Theorem X8_errors_before_the_read env ttl s messageData err :
  opens_socket env (client s) = true ->
  bytes_Repeat env ["a"%byte] (MsgSize (client s)) = inr messageData ->
  Marshal env (request env (client s) messageData) = inl err
  \/ (exists marsh n,
        Marshal env (request env (client s) messageData) = inr marsh
        /\ WriteTo env marsh (IPAddr (client s)) = inr n
        /\ n <> len marsh
        /\ err = ("error marshalling message" ++ newline)%string)
  \/ (sends env (client s) messageData /\ SetReadDeadline env = Some err) ->
  exists s',
    call (Ping env ttl) s = (Return (Some err), s')
    /\ Seq (client s') = GoInt.incr (Seq (client s))
    /\ PacketOut (client s') = GoInt.incr (PacketOut (client s))
    /\ PacketIn (client s') = PacketIn (client s)
    /\ RTTMin (client s') = RTTMin (client s)
    /\ RTTMax (client s') = RTTMax (client s)
    /\ TotalTime (client s') = TotalTime (client s)
    /\ stdout s' = stdout s.
Proof.
  intros Ho Hr Hcase. exists (sent_state env ttl s). split.
  - destruct Hcase as [Hm | [(marsh & n & Hm & Hw & Hn & ->) | (Hs & Hd)]].
    + exact (Ping_encode_error env ttl s messageData err Ho Hr Hm).
    + apply (Ping_short_write env ttl s messageData marsh n); auto.
      unfold encodes. auto.
    + exact (Ping_deadline_error env ttl s messageData err Hs Hd).
  - cbn [sent_state client stdout]. repeat split.
Qed.

Lemma X8_errors_before_the_read_witness :
  opens_socket short_write_env (client (sample_start 8)) = true
  /\ bytes_Repeat short_write_env ["a"%byte] (MsgSize (client (sample_start 8)))
     = inr (replicate 8 "a"%byte)
  /\ exists s',
       call (Ping short_write_env 64) (sample_start 8)
         = (Return (Some ("error marshalling message" ++ newline)%string), s')
       /\ Seq (client s') = GoInt.incr (Seq (client (sample_start 8)))
       /\ PacketOut (client s') = GoInt.incr (PacketOut (client (sample_start 8)))
       /\ PacketIn (client s') = PacketIn (client (sample_start 8))
       /\ RTTMin (client s') = RTTMin (client (sample_start 8))
       /\ RTTMax (client s') = RTTMax (client (sample_start 8))
       /\ TotalTime (client s') = TotalTime (client (sample_start 8))
       /\ stdout s' = stdout (sample_start 8).
Proof.
  split; [reflexivity|]. split; [reflexivity|].
  refine (X8_errors_before_the_read short_write_env 64 (sample_start 8)
            (replicate 8 "a"%byte) _ eq_refl eq_refl _).
  right. left. exists (replicate 8 Byte.x00 ++ replicate 8 "a"%byte), 15.
  split; [reflexivity|]. split; [reflexivity|]. split; [vm_compute; discriminate | reflexivity].
Defined.

(** X9.  When the datagram that was read does not parse, the call returns
    the parse error and does not count a received packet, yet the round
    trip is already in the statistics: [TotalTime] has grown by the elapsed
    time. *)
Theorem X9_parse_failure_is_timed env ttl s messageData n err :
  receives env (client s) messageData n ->
  0 <= n <= 500 ->
  ParseMessage env (proto_of (client s)) = inl err ->
  exists s',
    call (Ping env ttl) s = (Return (Some err), s')
    /\ PacketIn (client s') = PacketIn (client s)
    /\ TotalTime (client s') = (TotalTime (client s) + elapsed_ms env)%float
    /\ RTTMin (client s') = RTTMin (min_updated (elapsed_ms env) (client s))
    /\ RTTMax (client s') = RTTMax (max_updated (elapsed_ms env) (client s))
    /\ stdout s' = stdout s.
Proof.
  intros Hrc Hn Hp.
  pose proof (Ping_parse_error env ttl s messageData n err Hrc Hn Hp) as Hc.
  exists (timed_state env ttl [] s). split; [exact Hc|].
  destruct (Ping_received_RTT env ttl s messageData n _ _ Hrc Hc) as (Hmin & Hmax & Htot).
  split; [cbn [timed_state client]; client_fields|].
  split; [exact Htot|]. split; [exact Hmin|]. split; [exact Hmax|].
  cbn [timed_state stdout]. apply app_nil_r.
Qed.

Lemma X9_parse_failure_is_timed_witness :
  receives (parse_error_env 12.3) (client (sample_start 8)) (replicate 8 "a"%byte) 3
  /\ 0 <= 3 <= 500
  /\ exists s',
       call (Ping (parse_error_env 12.3) 64) (sample_start 8)
         = (Return (Some "message too short"%string), s')
       /\ PacketIn (client s') = 0
       /\ TotalTime (client s') = (0 + 12.3)%float.
Proof.
  assert (Hr : receives (parse_error_env 12.3) (client (sample_start 8))
                 (replicate 8 "a"%byte) 3) by sample_path.
  assert (Hn : 0 <= 3 <= 500) by lia.
  split; [exact Hr|]. split; [exact Hn|].
  destruct (X9_parse_failure_is_timed (parse_error_env 12.3) 64 (sample_start 8)
              (replicate 8 "a"%byte) 3 "message too short"%string Hr Hn eq_refl)
    as (s' & Hc & HI & HT & _).
  exists s'. auto.
Defined.

(** X10.  A call counts a received packet exactly when it read a datagram of
    1 to 500 bytes that parsed, whatever the body of the message: then
    [PacketIn] is incremented, and otherwise it is unchanged. *)
Theorem X10_PacketIn_counts_parsed_datagrams env ttl s e s' :
  call (Ping env ttl) s = (e, s') ->
  ((exists messageData n rMsg, parses env (client s) messageData n rMsg) ->
   PacketIn (client s') = GoInt.incr (PacketIn (client s)))
  /\ (~ (exists messageData n rMsg, parses env (client s) messageData n rMsg) ->
      PacketIn (client s') = PacketIn (client s)).
Proof.
  intros H.
  destruct (Ping_paths env ttl s e s' H) as
    [(Hnr & Hs) | [(md & n & out & Hrc & Hnp & _ & ->) | (md & n & rMsg & out & Hp & _ & ->)]].
  - split.
    + intros (md & n & rMsg & Hrc & _). destruct (Hnr md n Hrc).
    + intros _. destruct Hs as [-> | [-> | ->]]; reflexivity.
  - split.
    + intros (md' & n' & rMsg & Hp).
      assert (md' = md /\ n' = n) as [-> ->].
      { unfold parses, receives, sends, encodes in *.
        destruct Hp as (((m1 & (_ & Hr1 & _) & _) & _ & Hn1) & _).
        destruct Hrc as ((m2 & (_ & Hr2 & _) & _) & _ & Hn2).
        split; congruence. }
      destruct (Hnp rMsg Hp).
    + intros _. cbn [timed_state client]. client_fields.
  - split.
    + intros _. cbn [taken_state client]. client_fields.
    + intros Hno. destruct Hno. eauto.
Qed.

Lemma X10_PacketIn_counts_parsed_datagrams_witness :
  (exists messageData n rMsg,
     parses (time_exceeded_env 12.3) (client (sample_start 8)) messageData n rMsg)
  /\ PacketIn (client (call (Ping (time_exceeded_env 12.3) 64) (sample_start 8)).2)
     = GoInt.incr (PacketIn (client (sample_start 8))).
Proof.
  assert (Hp : exists messageData n rMsg,
             parses (time_exceeded_env 12.3) (client (sample_start 8)) messageData n rMsg).
  { exists (replicate 8 "a"%byte), 36,
      {| msg_Type := ipv4_ICMPTypeEcho; msg_Code := 0;
         msg_Body := TimeExceeded (replicate 28 Byte.x00) |}.
    sample_path. }
  split; [exact Hp|].
  exact (proj1 (X10_PacketIn_counts_parsed_datagrams (time_exceeded_env 12.3) 64
                  (sample_start 8) _ _ (surjective_pairing _)) Hp).
Defined.

(** X11.  A call never alters what was printed before it and prints at most
    one line. *)
Theorem X11_at_most_one_line env ttl s e s' :
  call (Ping env ttl) s = (e, s') ->
  exists out, stdout s' = stdout s ++ out /\ (length out <= 1)%nat.
Proof.
  intros H.
  destruct (Ping_paths env ttl s e s' H) as
    [(_ & Hs) | [(md & n & out & _ & _ & Hl & ->) | (md & n & rMsg & out & _ & Hl & ->)]].
  - exists []. rewrite app_nil_r. split; [|simpl; lia].
    destruct Hs as [-> | [-> | ->]]; reflexivity.
  - exists out. split; [reflexivity|].
    destruct Hl as [-> | (_ & _ & ->)]; simpl; lia.
  - exists out. split; [reflexivity|].
    destruct Hl as [-> | (Data & pLost & ->)]; simpl; lia.
Qed.

Lemma X11_at_most_one_line_witness :
  exists out,
    stdout (call (Ping (echo_env 12.3 (replicate 8 "a"%byte)) 64) (sample_start 8)).2
      = stdout (sample_start 8) ++ out
    /\ (length out <= 1)%nat.
Proof.
  exact (X11_at_most_one_line (echo_env 12.3 (replicate 8 "a"%byte)) 64 (sample_start 8)
           _ _ (surjective_pairing _)).
Defined.

(** ** Connections *)

(** X12.  The connection a call opens is on the network of the address
    family, "ip4:icmp" or "ip6:ipv6-icmp".  The call asks for the hop limit
    it was given and drops the answer: the connection carries that hop limit
    when [SetTTL] (or [SetHopLimit]) accepts it, and keeps the system's
    default when it is refused.  The connections that were open before are
    as they were. *)
Theorem X12_opened_connection env ttl s e s' :
  opens_socket env (client s) = true ->
  call (Ping env ttl) s = (e, s') ->
  conns s' !! fresh (dom (conns s))
    = Some {| conn_network := if IPv4 (client s) then "ip4:icmp" else "ip6:ipv6-icmp";
              conn_hop_limit := match SetHopLimit env ttl with
                                | None => Some ttl
                                | Some _ => None
                                end |}
  /\ forall c, c ∈ dom (conns s) -> conns s' !! c = conns s !! c.
Proof.
  intros Ho Hc. rewrite (Ping_conns env ttl s e s' Hc Ho). unfold opened. cbn zeta.
  split.
  - rewrite lookup_alter_eq, lookup_insert_eq. cbn [fmap option_fmap option_map].
    unfold with_hop_limit, network_of, family.
    destruct (SetHopLimit env ttl); now destruct (IPv4 (client s)).
  - intros c Hin.
    assert (Hne : fresh (dom (conns s)) <> c).
    { intros <-. exact (is_fresh _ Hin). }
    rewrite lookup_alter_ne, lookup_insert_ne by exact Hne. reflexivity.
Qed.

Lemma X12_opened_connection_witness :
  opens_socket (echo_env 12.3 (replicate 8 "a"%byte)) (client warm_state) = true
  /\ SetHopLimit (echo_env 12.3 (replicate 8 "a"%byte)) 300 = Some "invalid argument"%string
  /\ (call (Ping (echo_env 12.3 (replicate 8 "a"%byte)) 300) warm_state).1 = Return None
  /\ conns (call (Ping (echo_env 12.3 (replicate 8 "a"%byte)) 300) warm_state).2
       !! fresh (dom (conns warm_state))
     = Some {| conn_network := "ip4:icmp"; conn_hop_limit := None |}
  /\ forall c, c ∈ dom (conns warm_state) ->
       conns (call (Ping (echo_env 12.3 (replicate 8 "a"%byte)) 300) warm_state).2 !! c
       = conns warm_state !! c.
Proof.
  split; [reflexivity|]. split; [reflexivity|]. split; [vm_compute; reflexivity|].
  exact (X12_opened_connection (echo_env 12.3 (replicate 8 "a"%byte)) 300 warm_state
           _ _ eq_refl (surjective_pairing _)).
Defined.

(** ** The session over a run *)

Lemma Ping_keeps_target env ttl s e s' :
  call (Ping env ttl) s = (e, s') ->
  IPAddr (client s') = IPAddr (client s) /\ Addr (client s') = Addr (client s).
Proof.
  intros H.
  destruct (Ping_client env ttl s e s' H) as
    [(_ & ->) | (_ & [(-> & _) | [-> | [-> | ->]]])]; auto;
    split; client_fields.
Qed.

Lemma pings_keep calls : forall s s',
  pings calls s = Some s' ->
  IPAddr (client s') = IPAddr (client s)
  /\ Addr (client s') = Addr (client s)
  /\ IPv4 (client s') = IPv4 (client s)
  /\ MsgSize (client s') = MsgSize (client s)
  /\ PLost (client s') = PLost (client s).
Proof.
  induction calls as [|[env ttl] rest IH]; intros s s' Hrun.
  - now injection Hrun as <-.
  - destruct (pings_cons env ttl rest s s' Hrun) as (err & s1 & Hc & Hrest).
    destruct (Ping_keeps env ttl s _ s1 Hc) as (HP & HV & HM).
    destruct (Ping_keeps_target env ttl s _ s1 Hc) as (HI & HA).
    destruct (IH s1 s' Hrest) as (-> & -> & -> & -> & ->). auto.
Qed.

(** X14.  Whatever the calls of a run do, the client keeps the address it
    was built for, its name, its address family (IPv4 exactly when the
    resolved address has 4 bytes) and its message size; and [PLost] is 0 in
    every state reached from [NewClient]. *)
Theorem X14_session_is_fixed resolve addr msgSize pc out calls s' :
  NewClient resolve addr msgSize = (inr pc, out) ->
  pings calls (start pc out) = Some s' ->
  resolve "ip"%string addr = inr (IPAddr (client s'))
  /\ Addr (client s') = addr
  /\ IPv4 (client s') = (len (IP (IPAddr (client s'))) =? 4)
  /\ MsgSize (client s') = msgSize
  /\ PLost (client s') = 0.
Proof.
  intros Hnew Hrun.
  destruct (pings_keep calls _ s' Hrun) as (-> & -> & -> & -> & ->).
  cbn [start client]. unfold NewClient in Hnew.
  destruct (resolve "ip"%string addr) as [err|ipaddr]; [discriminate|].
  injection Hnew as <- _. repeat split.
Qed.

Lemma X14_session_is_fixed_witness :
  NewClient sample_resolver "one.one.one.one" 8
    = (inr (client (sample_start 8)), stdout (sample_start 8))
  /\ exists s',
       pings [(echo_env 12.3 (replicate 4 "a"%byte), 64); (timeout_env, 64)] (sample_start 8)
         = Some s'
       /\ sample_resolver "ip"%string "one.one.one.one"%string = inr (IPAddr (client s'))
       /\ Addr (client s') = "one.one.one.one"%string
       /\ IPv4 (client s') = (len (IP (IPAddr (client s'))) =? 4)
       /\ MsgSize (client s') = 8
       /\ PLost (client s') = 0.
Proof.
  split; [reflexivity|].
  destruct (pings [(echo_env 12.3 (replicate 4 "a"%byte), 64); (timeout_env, 64)]
              (sample_start 8)) as [s'|] eqn:Hrun; [|vm_compute in Hrun; discriminate Hrun].
  exists s'. split; [reflexivity|].
  exact (X14_session_is_fixed sample_resolver "one.one.one.one" 8 _ _ _ s' eq_refl Hrun).
Defined.

(** ** The report over a run *)

Lemma pings_PacketOut_count calls : forall s s',
  pings calls s = Some s' ->
  GoInt.in_range (PacketOut (client s)) ->
  PacketOut (client s) + Z.of_nat (length calls) <= GoInt.max_int ->
  PacketOut (client s') = PacketOut (client s) + Z.of_nat (opened_calls (client s) calls).
Proof.
  induction calls as [|[env ttl] rest IH]; intros s s' Hrun Hr Hmax.
  - injection Hrun as <-. unfold opened_calls. simpl. lia.
  - destruct (pings_cons env ttl rest s s' Hrun) as (err & s1 & Hc & Hrest).
    pose proof (Ping_counts env ttl s err s1 Hc) as Hcnt.
    destruct (Ping_keeps env ttl s _ s1 Hc) as (_ & Hv4 & _).
    rewrite opened_calls_cons.
    rewrite <- (opened_calls_family (client s1) (client s) rest Hv4).
    simpl length in Hmax. destruct Hr as [Hlo Hhi].
    destruct (opens_socket env (client s)); destruct Hcnt as [_ HP].
    + rewrite incr_no_overflow in HP by (first [split; lia | lia]).
      rewrite (IH s1 s' Hrest); rewrite HP; try lia. split; lia.
    + rewrite (IH s1 s' Hrest); rewrite HP; try lia. split; lia.
Qed.

Lemma Ping_without_reply env ttl s e s' err :
  ReadFrom env = inl err ->
  call (Ping env ttl) s = (e, s') ->
  PacketIn (client s') = PacketIn (client s)
  /\ RTTMin (client s') = RTTMin (client s)
  /\ RTTMax (client s') = RTTMax (client s)
  /\ TotalTime (client s') = TotalTime (client s).
Proof.
  intros Hrd H.
  destruct (Ping_paths env ttl s e s' H) as
    [(_ & Hs) | [(md & n & out & Hrc & _) | (md & n & rMsg & out & (Hrc & _) & _)]].
  - destruct Hs as [-> | [-> | ->]]; repeat split.
  - destruct Hrc as (_ & _ & Hrd'). congruence.
  - destruct Hrc as (_ & _ & Hrd'). congruence.
Qed.

Lemma pings_without_reply calls : forall s s',
  pings calls s = Some s' ->
  Forall (fun c => exists err, ReadFrom c.1 = inl err) calls ->
  PacketIn (client s') = PacketIn (client s)
  /\ RTTMin (client s') = RTTMin (client s)
  /\ RTTMax (client s') = RTTMax (client s)
  /\ TotalTime (client s') = TotalTime (client s).
Proof.
  induction calls as [|[env ttl] rest IH]; intros s s' Hrun Hall.
  - now injection Hrun as <-.
  - destruct (pings_cons env ttl rest s s' Hrun) as (err & s1 & Hc & Hrest).
    inversion Hall as [|c l [rerr Hrd] Hall']; subst.
    destruct (Ping_without_reply env ttl s _ s1 rerr Hrd Hc) as (HI & Hmin & Hmax & HT).
    destruct (IH s1 s' Hrest Hall') as (-> & -> & -> & ->). auto.
Qed.

(** X15.  After a run in which no call read a datagram (every read failed,
    by timeout or otherwise), the report is a single line: as many packets
    sent as calls opened their socket, 0 received, 100 percent loss, and no
    RTT line; the RTT fields still hold what [NewClient] put there. *)
Theorem X15_report_without_replies resolve addr msgSize pc out calls s' :
  NewClient resolve addr msgSize = (inr pc, out) ->
  pings calls (start pc out) = Some s' ->
  Forall (fun c => exists err, ReadFrom c.1 = inl err) calls ->
  Z.of_nat (length calls) <= GoInt.max_int ->
  report (client s') = [Out_statistics (Z.of_nat (opened_calls pc calls)) 0 100]
  /\ RTTMin (client s') = 1e5%float
  /\ RTTMax (client s') = (-1e5)%float.
Proof.
  intros Hnew Hrun Hall Hlen.
  destruct (NewClient_fields resolve addr msgSize pc out Hnew)
    as (HO & HI & _ & _ & _ & Hmax & Hmin & _).
  destruct (pings_without_reply calls _ s' Hrun Hall) as (HI' & Hmin' & Hmax' & _).
  pose proof (pings_PacketOut_count calls _ s' Hrun) as HO'.
  cbn [start client] in *. rewrite HO in HO'. rewrite HI in HI'.
  rewrite Hmin', Hmax'. split; [|auto].
  unfold report, report_reads. rewrite HI', HO'; [reflexivity | |lia].
  unfold GoInt.in_range. split; [vm_compute; discriminate | vm_compute; discriminate].
Qed.

Lemma X15_report_without_replies_witness :
  NewClient sample_resolver "one.one.one.one" 8
    = (inr (client (sample_start 8)), stdout (sample_start 8))
  /\ Forall (fun c : PingEnv * Z => exists err, ReadFrom c.1 = inl err)
       [(timeout_env, 64); (no_socket_env, 64); (send_error_env, 64)]
  /\ Z.of_nat 3 <= GoInt.max_int
  /\ exists s',
       pings [(timeout_env, 64); (no_socket_env, 64); (send_error_env, 64)] (sample_start 8)
         = Some s'
       /\ report (client s') = [Out_statistics 2 0 100].
Proof.
  assert (Hall : Forall (fun c : PingEnv * Z => exists err, ReadFrom c.1 = inl err)
                   [(timeout_env, 64); (no_socket_env, 64); (send_error_env, 64)])
    by (repeat constructor; eexists; reflexivity).
  split; [reflexivity|]. split; [exact Hall|]. split; [vm_compute; discriminate|].
  destruct (pings [(timeout_env, 64); (no_socket_env, 64); (send_error_env, 64)]
              (sample_start 8)) as [s'|] eqn:Hrun; [|vm_compute in Hrun; discriminate Hrun].
  exists s'. split; [reflexivity|].
  exact (proj1 (X15_report_without_replies sample_resolver "one.one.one.one" 8 _ _ _ s'
                  eq_refl Hrun Hall ltac:(vm_compute; discriminate))).
Defined.

(** X16.  In a state reached from [NewClient] in which a packet has been
    counted as received, the report prints the sent and received counts, a
    loss figure worked out from 0 lost bytes over [PacketOut * MsgSize], and
    the RTT line with [TotalTime / PacketIn] as the average. *)
Theorem X16_report_with_replies resolve addr msgSize pc out calls s' :
  NewClient resolve addr msgSize = (inr pc, out) ->
  pings calls (start pc out) = Some s' ->
  0 < PacketIn (client s') ->
  report (client s') =
    [Out_statistics (PacketOut (client s')) (PacketIn (client s'))
       (float64 0 / float64 (GoInt.mul (PacketOut (client s')) msgSize) * 100)%float;
     Out_rtt (RTTMin (client s'))
       (TotalTime (client s') / float64 (PacketIn (client s')))%float
       (RTTMax (client s'))].
Proof.
  intros Hnew Hrun Hin.
  destruct (NewClient_fields resolve addr msgSize pc out Hnew)
    as (_ & _ & _ & HL & _ & _ & _ & HM).
  destruct (pings_keep calls _ s' Hrun) as (_ & _ & _ & HM' & HL').
  cbn [start client] in *.
  unfold report, report_reads. rewrite (proj2 (Z.ltb_lt _ _) Hin), HL', HL, HM', HM. reflexivity.
Qed.

Lemma X16_report_with_replies_witness :
  NewClient sample_resolver "one.one.one.one" 8
    = (inr (client (sample_start 8)), stdout (sample_start 8))
  /\ exists s',
       pings [(echo_env 12.3 (replicate 4 "a"%byte), 64)] (sample_start 8) = Some s'
       /\ 0 < PacketIn (client s')
       /\ report (client s') = [Out_statistics 1 1 0; Out_rtt 12.3 12.3 12.3].
Proof.
  split; [reflexivity|].
  destruct (pings [(echo_env 12.3 (replicate 4 "a"%byte), 64)] (sample_start 8))
    as [s'|] eqn:Hrun; [|vm_compute in Hrun; discriminate Hrun].
  assert (Hin : 0 < PacketIn (client s'))
    by (vm_compute in Hrun; injection Hrun as <-; reflexivity).
  exists s'. split; [reflexivity|]. split; [exact Hin|].
  rewrite (X16_report_with_replies sample_resolver "one.one.one.one" 8 _ _ _ s'
             eq_refl Hrun Hin).
  vm_compute in Hrun. injection Hrun as <-. vm_compute. reflexivity.
Defined.

(** ** When a call panics *)

Lemma bytes_Repeat_panics env (b : Byte.byte) (count : Z) msg :
  count <= GoInt.max_int ->
  bytes_Repeat env [b] count = inl msg ->
  (count < 0 /\ msg = "bytes: negative Repeat count"%string)
  \/ (0 < count /\ make_bytes env count = Some msg).
Proof.
  intros Hmax. unfold bytes_Repeat.
  destruct (Z.eqb_spec count 0) as [->|Hz]; [discriminate|].
  destruct (Z.ltb_spec count 0) as [Hneg|Hpos].
  - intros [= <-]. left. auto.
  - change (len [b]) with 1. unfold GoInt.mul. rewrite Z.mul_1_l.
    rewrite wrap_id by (unfold GoInt.in_range; split; [|exact Hmax];
                        transitivity 0; [discriminate | exact Hpos]).
    rewrite Z.quot_same by exact Hz. cbn [Z.eqb Pos.eqb negb].
    destruct (make_bytes env count) as [m|] eqn:Hmk; [|discriminate].
    intros [= <-]. right. split; [lia | reflexivity].
Qed.

(** The three places a call can panic at. *)
Lemma Ping_panic_cases env ttl s msg s' :
  call (Ping env ttl) s = (Panic msg, s') ->
  (opens_socket env (client s) = true
   /\ bytes_Repeat env ["a"%byte] (MsgSize (client s)) = inl msg
   /\ s' = open_state env ttl s)
  \/ (exists n,
        ReadFrom env = inr n /\ ~ 0 <= n <= 500
        /\ msg = "slice bounds out of range"%string
        /\ s' = timed_state env ttl [] s)
  \/ (exists messageData Data,
        bytes_Repeat env ["a"%byte] (MsgSize (client s)) = inr messageData
        /\ echo_pLost messageData Data = None
        /\ msg = "index out of range"%string).
Proof.
  intros H.
  destruct (opens_socket env (client s)) eqn:Ho.
  2:{ destruct (Ping_no_socket env ttl s Ho) as (err & _ & Hc).
      rewrite Hc in H. discriminate H. }
  destruct (bytes_Repeat env ["a"%byte] (MsgSize (client s))) as [msg'|md] eqn:Hr.
  { rewrite (Ping_repeat_panic env ttl s msg' Ho Hr) in H.
    injection H as <- <-. left. auto. }
  destruct (Marshal env (request env (client s) md)) as [err|marsh] eqn:Hm.
  { rewrite (Ping_encode_error env ttl s md err Ho Hr Hm) in H. discriminate H. }
  assert (He : encodes env (client s) md marsh) by (unfold encodes; auto).
  destruct (WriteTo env marsh (IPAddr (client s))) as [err|n] eqn:Hw.
  { rewrite (Ping_send_error env ttl s md marsh err He Hw) in H. discriminate H. }
  destruct (Z.eq_dec n (len marsh)) as [->|Hn].
  2:{ rewrite (Ping_short_write env ttl s md marsh n He Hw Hn) in H. discriminate H. }
  assert (Hs : sends env (client s) md) by (exists marsh; auto).
  destruct (SetReadDeadline env) as [err|] eqn:Hd.
  { rewrite (Ping_deadline_error env ttl s md err Hs Hd) in H. discriminate H. }
  destruct (ReadFrom env) as [err|n] eqn:Hrd.
  { rewrite (Ping_read_error env ttl s md err Hs Hd Hrd) in H. discriminate H. }
  assert (Hrc : receives env (client s) md n) by (unfold receives; auto).
  destruct (decide (0 <= n <= 500)) as [Hb|Hb].
  2:{ rewrite (Ping_slice_panic env ttl s md n Hrc Hb) in H.
      injection H as <- <-. right; left. exists n. auto. }
  destruct (ParseMessage env (proto_of (client s))) as [err|rMsg] eqn:Hp.
  { rewrite (Ping_parse_error env ttl s md n err Hrc Hb Hp) in H. discriminate H. }
  destruct (decide (n = 0)) as [->|Hz].
  { rewrite (Ping_empty env ttl s md rMsg Hrc Hp) in H. discriminate H. }
  assert (Hps : parses env (client s) md n rMsg)
    by (unfold parses; split; [exact Hrc|]; split; [lia | exact Hp]).
  destruct (msg_Body rMsg) as [ID EchoSeq Data| | |] eqn:Hbody.
  { rewrite (Ping_echo_any env ttl s md n rMsg ID EchoSeq Data Hps Hbody) in H.
    destruct (echo_pLost md Data) eqn:Hl; [discriminate H|].
    injection H as <- <-. right; right. exists md, Data. auto. }
  all: rewrite (Ping_non_echo env ttl s md n rMsg Hps) in H
         by (rewrite Hbody; reflexivity);
       discriminate H.
Qed.

(** X17.  When [ReadFrom] reports a length the buffer can have, a call of
    [Ping] panics in [bytes.Repeat] only: on a negative [MsgSize], or when
    the run time does not provide the [MsgSize] bytes it is asked for.
    Either way the socket has been opened by then, the client record is
    untouched and nothing has been printed.  Neither [reply[:n]] nor the
    comparison loop panics. *)
Theorem X17_when_a_call_panics env ttl s msg s' :
  MsgSize (client s) <= GoInt.max_int ->
  (forall n, ReadFrom env = inr n -> 0 <= n <= 500) ->
  call (Ping env ttl) s = (Panic msg, s') ->
  opens_socket env (client s) = true
  /\ ((MsgSize (client s) < 0 /\ msg = "bytes: negative Repeat count"%string)
      \/ (0 < MsgSize (client s) /\ make_bytes env (MsgSize (client s)) = Some msg))
  /\ client s' = client s
  /\ stdout s' = stdout s.
Proof.
  intros Hmax Hread H.
  destruct (Ping_panic_cases env ttl s msg s' H) as
    [(Ho & Hr & ->) | [(n & Hrd & Hn & _) | (md & Data & Hr & Hl & _)]].
  - split; [exact Ho|]. split; [|split; reflexivity].
    exact (bytes_Repeat_panics env _ _ msg Hmax Hr).
  - now destruct (Hn (Hread n Hrd)).
  - rewrite echo_pLost_spec in Hl; [discriminate Hl|].
    now rewrite (bytes_Repeat_len _ _ _ _ Hr).
Qed.

Lemma X17_when_a_call_panics_witness :
  MsgSize (client (sample_start (2 ^ 62))) <= GoInt.max_int
  /\ (forall n, ReadFrom timeout_env = inr n -> 0 <= n <= 500)
  /\ exists s',
       call (Ping timeout_env 64) (sample_start (2 ^ 62))
         = (Panic "runtime error: makeslice: len out of range", s')
       /\ make_bytes timeout_env (2 ^ 62)
          = Some "runtime error: makeslice: len out of range"%string
       /\ client s' = client (sample_start (2 ^ 62)).
Proof.
  assert (Hmax : MsgSize (client (sample_start (2 ^ 62))) <= GoInt.max_int)
    by (vm_compute; discriminate).
  assert (Hread : forall n, ReadFrom timeout_env = inr n -> 0 <= n <= 500)
    by (intros n Hn; vm_compute in Hn; discriminate Hn).
  split; [exact Hmax|]. split; [exact Hread|].
  destruct (call (Ping timeout_env 64) (sample_start (2 ^ 62))) as [e s'] eqn:Hc.
  assert (He : e = Panic "runtime error: makeslice: len out of range")
    by (vm_compute in Hc; injection Hc as <- _; reflexivity).
  subst e. exists s'. split; [reflexivity|]. split; [reflexivity|].
  destruct (X17_when_a_call_panics timeout_env 64 (sample_start (2 ^ 62)) _ s'
              Hmax Hread Hc) as (_ & _ & Hcl & _).
  exact Hcl.
Defined.

(** X18.  The line [time limit exceeded] is printed only for a datagram of
    no bytes that the parser accepted: the call then returns nil and counts
    no received packet.  A read that runs into the deadline returns its
    error before that line. *)
Theorem X18_time_limit_line env ttl s e s' :
  call (Ping env ttl) s = (e, s') ->
  Out_time_limit_exceeded ∈ drop (length (stdout s)) (stdout s') ->
  ReadFrom env = inr 0
  /\ e = Return None
  /\ PacketIn (client s') = PacketIn (client s).
Proof.
  intros H Hin.
  destruct (Ping_paths env ttl s e s' H) as
    [(_ & Hs) | [(md & n & out & Hrc & _ & Hl & ->) | (md & n & rMsg & out & _ & Hl & ->)]].
  - assert (Hout : stdout s' = stdout s)
      by (destruct Hs as [-> | [-> | ->]]; reflexivity).
    rewrite Hout, drop_all in Hin. now apply elem_of_nil in Hin.
  - cbn [timed_state stdout] in Hin. rewrite drop_app_length in Hin.
    destruct Hl as [-> | (-> & -> & ->)]; [now apply elem_of_nil in Hin|].
    destruct Hrc as (_ & _ & Hrd).
    split; [exact Hrd|]. split; [reflexivity|].
    cbn [timed_state client]. client_fields.
  - cbn [taken_state stdout] in Hin. rewrite drop_app_length in Hin.
    destruct Hl as [-> | (Data & pLost & ->)]; [now apply elem_of_nil in Hin|].
    apply list_elem_of_singleton in Hin. unfold received_line in Hin. discriminate Hin.
Qed.

Lemma X18_time_limit_line_witness :
  exists e s',
    call (Ping empty_datagram_env 64) (sample_start 8) = (e, s')
    /\ Out_time_limit_exceeded ∈ drop (length (stdout (sample_start 8))) (stdout s')
    /\ e = Return None
    /\ PacketIn (client s') = 0.
Proof.
  destruct (call (Ping empty_datagram_env 64) (sample_start 8)) as [e s'] eqn:Hc.
  assert (Hin : Out_time_limit_exceeded
                  ∈ drop (length (stdout (sample_start 8))) (stdout s')).
  { vm_compute in Hc. injection Hc as _ <-. cbn. apply list_elem_of_here. }
  exists e, s'. split; [reflexivity|]. split; [exact Hin|].
  destruct (X18_time_limit_line empty_datagram_env 64 (sample_start 8) e s' Hc Hin)
    as (_ & He & HI).
  split; [exact He | exact HI].
Defined.

(** ** Runs that end *)

(** X19.  With a message size from 0 up to the largest [int] whose bytes the
    run time provides, and reads that report a length the buffer can have,
    no call of a run panics, whatever errors the calls return: the loop goes
    through every round. *)
Theorem X19_run_goes_on calls : forall s,
  0 <= MsgSize (client s) <= GoInt.max_int ->
  Forall (fun c => make_bytes c.1 (MsgSize (client s)) = None
                   /\ forall n, ReadFrom c.1 = inr n -> 0 <= n <= 500) calls ->
  exists s', pings calls s = Some s'.
Proof.
  induction calls as [|[env ttl] rest IH]; intros s Hm Hall.
  - exists s. reflexivity.
  - inversion Hall as [|c l [Hmk Hrd] Hall']; subst. cbn [fst] in Hmk, Hrd.
    cbn [pings].
    destruct (call (Ping env ttl) s) as [[err|msg] s1] eqn:Hc.
    + destruct (Ping_keeps env ttl s _ s1 Hc) as (_ & _ & HM).
      apply IH; rewrite HM; assumption.
    + exfalso.
      destruct (Ping_panic_cases env ttl s msg s1 Hc) as
        [(_ & Hr & _) | [(n & Hn & Hb & _) | (md & Data & Hr & Hl & _)]].
      * destruct (bytes_Repeat_panics env _ _ msg (proj2 Hm) Hr) as [[Hneg _] | [_ Hno]];
          [lia | congruence].
      * apply Hb, Hrd, Hn.
      * rewrite echo_pLost_spec in Hl; [discriminate Hl|].
        rewrite (bytes_Repeat_len _ _ _ _ Hr). lia.
Qed.

Lemma X19_run_goes_on_witness :
  0 <= MsgSize (client (sample_start 8)) <= GoInt.max_int
  /\ exists s',
       pings [(timeout_env, 64); (echo_env 12.3 (replicate 8 "a"%byte), 64);
              (no_socket_env, 64)] (sample_start 8) = Some s'.
Proof.
  assert (Hm : 0 <= MsgSize (client (sample_start 8)) <= GoInt.max_int)
    by (split; vm_compute; discriminate).
  split; [exact Hm|].
  apply (X19_run_goes_on _ (sample_start 8) Hm).
  repeat apply Forall_cons_2; try apply Forall_nil_2;
    (split; [reflexivity|]);
    cbn [fst]; intros n Hn; vm_compute in Hn;
    first [discriminate Hn | injection Hn as <-; lia].
Defined.
